(** * Listing routes of the real-estate backend: a shallow embedding

    The development follows the route file of the repository
    ([routes/property], both revisions found under [src/unnamed]) and the
    listing schema ([models/Property]).  A handler is modelled from the
    point where the middleware before it ([protect], [agent], the upload
    and [validateProperty]) has passed the request on.

    - JavaScript values that reach the handlers are modelled as they are:
      query-string values are strings, multipart form fields are strings,
      JSON body fields are strings, numbers or arrays.
    - A JavaScript number is one of NaN, the two infinities, or a finite
      value kept as an exact rational in lowest terms.  The rounding and
      the overflow of IEEE doubles are not modelled, and there is one zero:
      the handlers can tell [-0] from [0] only where they divide by
      [limit], so the statement about [limit=0] is for a parameter that is
      written without a minus sign.
    - Strings are sequences of bytes; white space and letter case are the
      ASCII ones.
    - The text index, the geospatial index, the regular expression engine
      (beyond a small fragment), the identifier format, the text of a
      number ([Number.prototype.toString]) and the validation of untouched
      paths by [save] are collaborators: they are the fields of the class
      [Collaborators] and every theorem holds for all of them. *)

From Stdlib Require Import ZArith QArith Qround Ascii String List Bool Lia Permutation.
From stdpp Require Import gmap strings list.

Open Scope string_scope.
Open Scope Z_scope.

(** ** JavaScript numbers *)

Inductive jsnum : Type :=
| Fin (q : Q)
| NaN
| PosInf
| NegInf.

Definition jint (z : Z) : jsnum := Fin (z # 1).

Definition Qsign (q : Q) : Z := Z.sgn (Qnum q).

Definition jneg (a : jsnum) : jsnum :=
  match a with
  | Fin q => Fin (Qred (Qopp q))
  | NaN => NaN
  | PosInf => NegInf
  | NegInf => PosInf
  end.

Definition jadd (a b : jsnum) : jsnum :=
  match a, b with
  | NaN, _ | _, NaN => NaN
  | Fin x, Fin y => Fin (Qred (Qplus x y))
  | PosInf, NegInf | NegInf, PosInf => NaN
  | PosInf, _ | _, PosInf => PosInf
  | NegInf, _ | _, NegInf => NegInf
  end.

Definition jsub (a b : jsnum) : jsnum := jadd a (jneg b).

Definition inf_of_sign (s : Z) : jsnum :=
  match s with
  | Z0 => NaN
  | Zpos _ => PosInf
  | Zneg _ => NegInf
  end.

Definition jsign (a : jsnum) : Z :=
  match a with
  | Fin q => Qsign q
  | NaN => 0
  | PosInf => 1
  | NegInf => -1
  end.

Definition jmul (a b : jsnum) : jsnum :=
  match a, b with
  | NaN, _ | _, NaN => NaN
  | Fin x, Fin y => Fin (Qred (Qmult x y))
  | _, _ => inf_of_sign (jsign a * jsign b)
  end.

Definition jdiv (a b : jsnum) : jsnum :=
  match a, b with
  | NaN, _ | _, NaN => NaN
  | Fin x, Fin y =>
      if Qeq_bool y 0 then inf_of_sign (Qsign x) else Fin (Qred (Qdiv x y))
  | Fin _, _ => jint 0
  | _, Fin y => inf_of_sign (jsign a * (if Qeq_bool y 0 then 1 else Qsign y))
  | _, _ => NaN
  end.

(** [Math.ceil] *)
Definition Math_ceil (a : jsnum) : jsnum :=
  match a with
  | Fin q => jint (Qceiling q)
  | other => other
  end.

(** Numeric order as the store compares numbers ([$gte], [$lte]); a NaN
    operand never reaches it (see [castNumber]). *)
Definition jle (a b : jsnum) : bool :=
  match a, b with
  | NaN, _ | _, NaN => false
  | NegInf, _ => true
  | _, PosInf => true
  | Fin x, Fin y => Qle_bool x y
  | _, _ => false
  end.

Definition jeq (a b : jsnum) : bool :=
  match a, b with
  | Fin x, Fin y => Qeq_bool x y
  | PosInf, PosInf | NegInf, NegInf => true
  | _, _ => false
  end.

Definition is_nan (a : jsnum) : bool :=
  match a with NaN => true | _ => false end.

(** ** Strings: [trim], [split(",")], [toUpperCase] on ASCII *)

Definition is_ws (c : ascii) : bool :=
  let n := nat_of_ascii c in
  ((n =? 9) || (n =? 10) || (n =? 11) || (n =? 12) || (n =? 13) || (n =? 32))%nat.

Fixpoint trim_start (s : string) : string :=
  match s with
  | String c r => if is_ws c then trim_start r else s
  | EmptyString => EmptyString
  end.

(** Drops the white space at the end: a character stays when it is not
    white space or something stays after it. *)
Fixpoint trim_end (s : string) : string :=
  match s with
  | EmptyString => EmptyString
  | String c r =>
      match trim_end r with
      | EmptyString => if is_ws c then EmptyString else String c EmptyString
      | r' => String c r'
      end
  end.

Definition trim (s : string) : string := trim_end (trim_start s).

(** [s.split(",")]: the pieces between the commas, empty pieces included;
    the empty string gives one empty piece. *)
Fixpoint split_comma (s : string) : list string :=
  match s with
  | EmptyString => [EmptyString]
  | String c r =>
      if Ascii.eqb c ","%char then EmptyString :: split_comma r
      else match split_comma r with
           | h :: t => String c h :: t
           | [] => [String c EmptyString]
           end
  end.

Definition upper_ascii (c : ascii) : ascii :=
  let n := nat_of_ascii c in
  if ((97 <=? n) && (n <=? 122))%nat then ascii_of_nat (n - 32) else c.

(** ** [Number(string)]: the StringToNumber grammar *)

Definition digit_of (base : Z) (c : ascii) : option Z :=
  let n := Z.of_nat (nat_of_ascii c) in
  let v := if (48 <=? n) && (n <=? 57) then Some (n - 48)
           else if (97 <=? n) && (n <=? 102) then Some (n - 87)
           else if (65 <=? n) && (n <=? 70) then Some (n - 55)
           else None in
  match v with
  | Some d => if d <? base then Some d else None
  | None => None
  end.

(** Reads the longest run of digits: (value with [acc] in front, number of
    digits read, what is left). *)
Fixpoint read_digits (base acc : Z) (n : nat) (s : string) : Z * nat * string :=
  match s with
  | String c r =>
      match digit_of base c with
      | Some d => read_digits base (acc * base + d) (S n) r
      | None => (acc, n, s)
      end
  | EmptyString => (acc, n, s)
  end.

Definition read_sign (s : string) : Z * string :=
  match s with
  | String c r =>
      if Ascii.eqb c "+"%char then (1, r)
      else if Ascii.eqb c "-"%char then (-1, r)
      else (1, s)
  | EmptyString => (1, s)
  end.

(** [m * 10^e] as a number. *)
Definition scale10 (m e : Z) : jsnum :=
  if 0 <=? e then jint (m * 10 ^ e)
  else Fin (Qred (m # Z.to_pos (10 ^ (- e)))).

Definition parse_exponent (s : string) : option Z :=
  match s with
  | EmptyString => Some 0
  | String c r =>
      if Ascii.eqb c "e"%char || Ascii.eqb c "E"%char then
        let '(sg, r1) := read_sign r in
        let '(v, n, rest) := read_digits 10 0 0 r1 in
        match n, rest with
        | S _, EmptyString => Some (sg * v)
        | _, _ => None
        end
      else None
  end.

(** StrUnsignedDecimalLiteral: [Infinity], digits with an optional fraction
    and exponent, or a fraction that starts with the dot. *)
Definition parse_unsigned_decimal (s : string) : jsnum :=
  if String.eqb s "Infinity" then PosInf else
  let '(ip, ni, r1) := read_digits 10 0 0 s in
  let '(m, nf, r2) :=
    match r1 with
    | String c r => if Ascii.eqb c "."%char then read_digits 10 ip 0 r else (ip, 0%nat, r1)
    | EmptyString => (ip, 0%nat, r1)
    end in
  match (ni + nf)%nat with
  | O => NaN
  | S _ =>
      match parse_exponent r2 with
      | Some e => scale10 m (e - Z.of_nat nf)
      | None => NaN
      end
  end.

Definition parse_radix (base : Z) (s : string) : jsnum :=
  let '(v, n, rest) := read_digits base 0 0 s in
  match n, rest with
  | S _, EmptyString => jint v
  | _, _ => NaN
  end.

Definition radix_prefix (s : string) : option (Z * string) :=
  match s with
  | String z (String x r) =>
      if Ascii.eqb z "0"%char then
        if Ascii.eqb x "x"%char || Ascii.eqb x "X"%char then Some (16, r)
        else if Ascii.eqb x "o"%char || Ascii.eqb x "O"%char then Some (8, r)
        else if Ascii.eqb x "b"%char || Ascii.eqb x "B"%char then Some (2, r)
        else None
      else None
  | _ => None
  end.

Definition StringToNumber (s : string) : jsnum :=
  let t := trim s in
  match t with
  | EmptyString => jint 0
  | _ =>
      match radix_prefix t with
      | Some (base, r) => parse_radix base r
      | None =>
          let '(sg, r) := read_sign t in
          let v := parse_unsigned_decimal r in
          if sg <? 0 then jneg v else v
      end
  end.

(** ** JavaScript values of request fields *)

Inductive jsval : Type :=
| JUndefined
| JStr (s : string)
| JNum (n : jsnum)
| JArr (l : list string).

(** Truthiness, as [if (x)], [x && y] and [x || y] read a value. *)
Definition truthy (v : jsval) : bool :=
  match v with
  | JUndefined => false
  | JStr s => negb (String.eqb s "")
  | JNum (Fin q) => negb (Qeq_bool q 0)
  | JNum NaN => false
  | JNum _ => true
  | JArr _ => true
  end.

(** [array.toString()]: the elements joined by commas. *)
Fixpoint join_comma (l : list string) : string :=
  match l with
  | [] => ""
  | [x] => x
  | x :: r => String.append x (String.append "," (join_comma r))
  end.

(** [Number(v)] and unary plus. *)
Definition Number (v : jsval) : jsnum :=
  match v with
  | JUndefined => NaN
  | JStr s => StringToNumber s
  | JNum n => n
  | JArr l => StringToNumber (join_comma l)
  end.

(** [a || b] *)
Definition js_or (a b : jsval) : jsval := if truthy a then a else b.

(** [a && b] *)
Definition js_and (a b : jsval) : jsval := if truthy a then b else a.

(** ** The listing schema (models/Property) *)

Record Image : Type := { url : string; public_id : string }.

Record GeoPoint : Type := { geo_type : string; coordinates : list jsnum }.

Record Property : Type := {
  p_id : string;
  p_title : string;
  p_description : string;
  p_price : jsnum;
  p_location : string;
  p_type : string;
  p_amenities : list string;
  p_images : list Image;
  p_agent : string;
  p_createdAt : Z;
  p_bedrooms : jsnum;
  p_bathrooms : jsnum;
  p_squareFootage : jsnum;
  p_status : string;
  p_views : Z;
  p_locationCoordinates : GeoPoint
}.

(** The schema's default for [locationCoordinates]: [{type: 'Point',
    coordinates: [0, 0]}]. *)
Definition default_locationCoordinates : GeoPoint :=
  {| geo_type := "Point"; coordinates := [jint 0; jint 0] |}.

Definition property_types : list string := ["house"; "apartment"; "condo"; "land"].
Definition status_values : list string := ["active"; "sold"; "pending"; "rented"].

Definition mem_string (s : string) (l : list string) : bool :=
  existsb (String.eqb s) l.

(** ** Regular expressions with the [i] flag

    A pattern made of ordinary characters and dots is interpreted here.
    Any other pattern is handed to the engine of [Collaborators]. *)

Inductive atom : Type :=
| Lit (c : ascii)
| AnyChar.

Definition syntax_characters : string := "\^$.*+?()[]{}|".

Fixpoint mem_ascii (c : ascii) (s : string) : bool :=
  match s with
  | EmptyString => false
  | String d r => Ascii.eqb c d || mem_ascii c r
  end.

Fixpoint parse_atoms (pat : string) : option (list atom) :=
  match pat with
  | EmptyString => Some []
  | String c r =>
      match parse_atoms r with
      | None => None
      | Some l =>
          if Ascii.eqb c "."%char then Some (AnyChar :: l)
          else if mem_ascii c syntax_characters then None
          else Some (Lit c :: l)
      end
  end.

Definition is_line_terminator (c : ascii) : bool :=
  let n := nat_of_ascii c in ((n =? 10) || (n =? 13))%nat.

Definition atom_matches (a : atom) (c : ascii) : bool :=
  match a with
  | Lit d => Ascii.eqb (upper_ascii d) (upper_ascii c)
  | AnyChar => negb (is_line_terminator c)
  end.

(** The atoms match a prefix of [s]. *)
Fixpoint atoms_match_here (l : list atom) (s : string) : bool :=
  match l, s with
  | [], _ => true
  | a :: l', String c r => atom_matches a c && atoms_match_here l' r
  | _ :: _, EmptyString => false
  end.

(** [re.test(s)] without anchors: the atoms match at some position. *)
Fixpoint atoms_search (l : list atom) (s : string) : bool :=
  atoms_match_here l s ||
  match s with
  | EmptyString => false
  | String _ r => atoms_search l r
  end.

Inductive RegExp : Type :=
| ReAtoms (l : list atom)
| ReEngine (test : string -> bool).

Definition RegExp_test (re : RegExp) (s : string) : bool :=
  match re with
  | ReAtoms l => atoms_search l s
  | ReEngine f => f s
  end.

(** ** Geospatial operators of the two revisions of the route file *)

Inductive GeoFilter : Type :=
| Near (lng lat maxDistance : jsnum)
| GeoWithinCenterSphere (lng lat radians : jsnum).

(** ** Collaborators

    What the handlers use and the repository does not define. *)
Class Collaborators : Type := {
  (** [mongoose.isValidObjectId] on a path parameter *)
  isValidObjectId : string -> bool;
  (** [new RegExp(p, "i")] for a pattern outside the interpreted fragment;
      [None] when the constructor throws SyntaxError *)
  regexp_engine : string -> option (string -> bool);
  (** the text index: [{$text: {$search: s}}] *)
  textMatches : string -> Property -> bool;
  (** the geospatial index; [None] when the store rejects the operator or
      its operands *)
  geoSelect : GeoFilter -> option (Property -> bool);
  (** the validation [save] runs on the paths of a stored document that the
      handler did not assign *)
  revalidates : Property -> bool;
  (** [n.toString()], by which the schema casts a number to a String path *)
  number_text : jsnum -> string
}.

Definition new_RegExp_i {C : Collaborators} (pat : string) : option RegExp :=
  match parse_atoms pat with
  | Some l => Some (ReAtoms l)
  | None => option_map ReEngine (regexp_engine pat)
  end.

(** ** The query descriptor built by the listing routes *)

Record Range : Type := { gte : option jsnum; lte : option jsnum }.

Record Query : Type := {
  q_agent : option string;
  q_text : option string;
  q_locationCoordinates : option GeoFilter;
  q_location : option RegExp;
  q_type : option string;
  q_amenities_all : option (list string);
  q_bedrooms : option jsnum;
  q_bathrooms : option jsnum;
  q_status : option string;
  q_price : option Range;
  q_squareFootage : option Range
}.

Inductive revision : Type :=
| NearRevision
| GeoWithinRevision.

(** A query-string value read by [if (x)]: absent and empty are falsy.
    The values of [req.query] are strings here; a key given twice or with
    brackets (an array or an object) is not modelled.  The loop over
    [mongo-sanitize] runs after the parameters were read into constants and
    returns a string as it is, so it does not show in the model. *)
Definition present (o : option string) : option string :=
  match o with
  | Some s => if String.eqb s "" then None else Some s
  | None => None
  end.

(** [if (lat && lng && radius) query.locationCoordinates = ...] *)
Definition geo_filter (rev : revision) (lat lng radius : option string) : option GeoFilter :=
  match present lat, present lng, present radius with
  | Some lat, Some lng, Some radius =>
      Some match rev with
           | NearRevision =>
               Near (StringToNumber lng) (StringToNumber lat)
                    (jmul (StringToNumber radius) (jint 1000))
           | GeoWithinRevision =>
               GeoWithinCenterSphere (StringToNumber lng) (StringToNumber lat)
                    (jdiv (StringToNumber radius) (Fin (63781 # 10)))
           end
  | _, _, _ => None
  end.

(** [if (amenities) query.amenities = { $all: amenities.toString().split(",").map((a) => a.trim()) }];
    [toString] of a string is the string. *)
Definition amenities_filter (amenities : option string) : option (list string) :=
  match present amenities with
  | Some s => Some (map trim (split_comma s))
  | None => None
  end.

(** [if (min || max) { query.f = {}; if (min) query.f.$gte = Number(min);
    if (max) query.f.$lte = Number(max); }] *)
Definition range_filter (vmin vmax : option string) : option Range :=
  match present vmin, present vmax with
  | None, None => None
  | a, b => Some {| gte := option_map StringToNumber a; lte := option_map StringToNumber b |}
  end.

(** The body shared by [router.get("/")] and [router.get("/user")]; the
    agent-scoped route starts from [{ agent: req.user._id }] and reads
    [status].  [None]: [new RegExp] threw. *)
Definition build_query {C : Collaborators} (rev : revision) (agent_id : option string)
    (rq : gmap string string) : option Query :=
  let location :=
    match present (rq !! "location") with
    | Some pat => option_map Some (new_RegExp_i pat)
    | None => Some None
    end in
  match location with
  | None => None
  | Some re =>
      Some {|
        q_agent := agent_id;
        q_text := present (rq !! "search");
        q_locationCoordinates :=
          geo_filter rev (rq !! "lat") (rq !! "lng") (rq !! "radius");
        q_location := re;
        q_type := present (rq !! "type");
        q_amenities_all := amenities_filter (rq !! "amenities");
        q_bedrooms := option_map StringToNumber (present (rq !! "bedrooms"));
        q_bathrooms := option_map StringToNumber (present (rq !! "bathrooms"));
        q_status :=
          match agent_id with
          | Some _ => present (rq !! "status")
          | None => None
          end;
        q_price := range_filter (rq !! "priceMin") (rq !! "priceMax");
        q_squareFootage :=
          range_filter (rq !! "squareFootageMin") (rq !! "squareFootageMax")
      |}
  end.

(** ** The document store: casting and matching a query *)

(** [$all] on an array field: every given element is in the array; an
    empty [$all] matches nothing. *)
Definition all_in (tags : list string) (arr : list string) : bool :=
  match tags with
  | [] => false
  | _ => forallb (fun t => mem_string t arr) tags
  end.

Definition opt_holds {A : Type} (o : option A) (f : A -> bool) : bool :=
  match o with
  | Some a => f a
  | None => true
  end.

Definition in_range (r : Range) (v : jsnum) : bool :=
  opt_holds (gte r) (fun lo => jle lo v) && opt_holds (lte r) (fun hi => jle v hi).

(** The filters other than the geospatial one, all of them joined by AND. *)
Definition matches_fields {C : Collaborators} (q : Query) (p : Property) : bool :=
  opt_holds (q_agent q) (String.eqb (p_agent p)) &&
  opt_holds (q_text q) (fun s => textMatches s p) &&
  opt_holds (q_location q) (fun re => RegExp_test re (p_location p)) &&
  opt_holds (q_type q) (String.eqb (p_type p)) &&
  opt_holds (q_amenities_all q) (fun tags => all_in tags (p_amenities p)) &&
  opt_holds (q_bedrooms q) (jeq (p_bedrooms p)) &&
  opt_holds (q_bathrooms q) (jeq (p_bathrooms p)) &&
  opt_holds (q_status q) (String.eqb (p_status p)) &&
  opt_holds (q_price q) (fun r => in_range r (p_price p)) &&
  opt_holds (q_squareFootage q) (fun r => in_range r (p_squareFootage p)).

(** The cast of a query by the schema: a NaN where the schema has a Number
    fails the cast (castNumber asserts [!isNaN(val)]). *)
Definition nan_operand (o : option jsnum) : bool :=
  match o with
  | Some n => is_nan n
  | None => false
  end.

Definition nan_range (r : option Range) : bool :=
  match r with
  | Some r => nan_operand (gte r) || nan_operand (lte r)
  | None => false
  end.

Definition cast_fails (q : Query) : bool :=
  nan_operand (q_bedrooms q) || nan_operand (q_bathrooms q) ||
  nan_range (q_price q) || nan_range (q_squareFootage q).

(** The predicate a query selects documents by; [None]: the operation
    rejects (a cast error, or the store refuses the geospatial filter). *)
Definition selector {C : Collaborators} (q : Query) : option (Property -> bool) :=
  if cast_fails q then None
  else match q_locationCoordinates q with
       | None => Some (matches_fields q)
       | Some g =>
           match geoSelect g with
           | Some near => Some (fun p => near p && matches_fields q p)
           | None => None
           end
       end.

Definition countDocuments {C : Collaborators} (q : Query) (db : list Property) : option nat :=
  option_map (fun f => length (List.filter f db)) (selector q).

(** ** Sorting, skipping and limiting *)

Inductive sortval : Type :=
| SNull
| SNum (n : jsnum)
| SStr (s : string).

(** The value a document is sorted by; a path the document does not have
    sorts as null.  Array and embedded paths are read as null here. *)
Definition field_value (f : string) (p : Property) : sortval :=
  if String.eqb f "createdAt" then SNum (jint (p_createdAt p))
  else if String.eqb f "price" then SNum (p_price p)
  else if String.eqb f "bedrooms" then SNum (p_bedrooms p)
  else if String.eqb f "bathrooms" then SNum (p_bathrooms p)
  else if String.eqb f "squareFootage" then SNum (p_squareFootage p)
  else if String.eqb f "views" then SNum (jint (p_views p))
  else if String.eqb f "title" then SStr (p_title p)
  else if String.eqb f "description" then SStr (p_description p)
  else if String.eqb f "location" then SStr (p_location p)
  else if String.eqb f "type" then SStr (p_type p)
  else if String.eqb f "status" then SStr (p_status p)
  else if String.eqb f "_id" then SStr (p_id p)
  else if String.eqb f "agent" then SStr (p_agent p)
  else SNull.

Definition sortval_le (a b : sortval) : bool :=
  match a, b with
  | SNull, _ => true
  | SNum x, SNum y => jle x y
  | SNum _, SStr _ => true
  | SStr x, SStr y => String.leb x y
  | _, _ => false
  end.

Fixpoint insert_sorted (le : Property -> Property -> bool) (x : Property)
    (l : list Property) : list Property :=
  match l with
  | [] => [x]
  | y :: r => if le x y then x :: l else y :: insert_sorted le x r
  end.

(** [.sort({ [sort]: order === "desc" ? -1 : 1 })], stable. *)
Definition sort_by (f : string) (order : string) (l : list Property) : list Property :=
  let le x y :=
    if String.eqb order "desc"
    then sortval_le (field_value f y) (field_value f x)
    else sortval_le (field_value f x) (field_value f y) in
  fold_right (insert_sorted le) [] l.

Definition as_integer (n : jsnum) : option Z :=
  match n with
  | Fin q => if Pos.eqb (Qden q) 1 then Some (Qnum q) else None
  | _ => None
  end.

(** [.skip(n)]: a non-negative integer; anything else is rejected. *)
Definition skip (n : jsnum) (l : list Property) : option (list Property) :=
  match as_integer n with
  | Some z => if 0 <=? z then Some (drop (Z.to_nat z) l) else None
  | None => None
  end.

(** [.limit(n)]: 0 is no limit, a negative limit is read by its absolute
    value; a value that is not an integer is rejected. *)
Definition limit (n : jsnum) (l : list Property) : option (list Property) :=
  match as_integer n with
  | Some 0 => Some l
  | Some z => Some (take (Z.to_nat (Z.abs z)) l)
  | None => None
  end.

(** [Property.find(query).sort({ [sort]: ... }).skip(...).limit(...)]; an
    empty sort key is rejected. *)
Definition find {C : Collaborators} (q : Query) (sort order : string) (nskip nlimit : jsnum)
    (db : list Property) : option (list Property) :=
  if String.eqb sort "" then None
  else
    match selector q with
    | Some f =>
        match skip nskip (sort_by sort order (List.filter f db)) with
        | Some l => limit nlimit l
        | None => None
        end
    | None => None
    end.

(** ** Responses *)

Record Envelope : Type := {
  success : bool;
  count : nat;
  total : nat;
  page : jsnum;
  pages : jsnum;
  properties : list Property
}.

Inductive response : Type :=
| ListResponse (e : Envelope)
| PropertyResponse (status : Z) (p : Property)
| MessageResponse (status : Z) (ok : bool) (message : string)
| LocationsResponse (n : nat) (locations : list string)
| Unhandled.

Definition server_error : response := MessageResponse 500 false "Server Error".

(** ** GET / and GET /user *)

(** [page = 1], [limit = 10], [sort = "createdAt"], [order = "desc"] when
    the parameter is absent; [+page] and [+limit] otherwise. *)
Definition page_of (rq : gmap string string) : jsnum :=
  match rq !! "page" with Some s => StringToNumber s | None => jint 1 end.

Definition limit_of (rq : gmap string string) : jsnum :=
  match rq !! "limit" with Some s => StringToNumber s | None => jint 10 end.

Definition sort_of (rq : gmap string string) : string := default "createdAt" (rq !! "sort").
Definition order_of (rq : gmap string string) : string := default "desc" (rq !! "order").

(** The [try] block of the listing routes. *)
Definition run_listing {C : Collaborators} (db : list Property) (q : Query)
    (rq : gmap string string) : response :=
  match countDocuments q db with
  | None => server_error
  | Some n =>
      match find q (sort_of rq) (order_of rq)
                 (jmul (jsub (page_of rq) (jint 1)) (limit_of rq)) (limit_of rq) db with
      | None => server_error
      | Some l =>
          ListResponse {|
            success := true;
            count := length l;
            total := n;
            page := page_of rq;
            pages := Math_ceil (jdiv (jint (Z.of_nat n)) (limit_of rq));
            properties := l
          |}
      end
  end.

(** [router.get("/")]: the query is built before the [try] block, so an
    exception of [new RegExp] leaves the handler.  [populate("agent", ...)]
    replaces the agent reference by two fields of the user in the answer
    only; the model keeps the reference. *)
Definition get_properties {C : Collaborators} (rev : revision) (db : list Property)
    (rq : gmap string string) : response :=
  match build_query rev None rq with
  | None => Unhandled
  | Some q => run_listing db q rq
  end.

Record User : Type := { u_id : string; role : string }.

(** [router.get("/user")]: everything is inside the [try] block. *)
Definition get_user_properties {C : Collaborators} (rev : revision) (db : list Property)
    (user : option User) (rq : gmap string string) : response :=
  match user with
  | None => MessageResponse 401 false "User not authenticated"
  | Some u =>
      match build_query rev (Some (u_id u)) rq with
      | None => server_error
      | Some q => run_listing db q rq
      end
  end.

(** ** GET /locations *)

(** [Property.distinct("location", filter)]: the locations of the matching
    documents, each once. *)
Fixpoint distinct (l : list string) : list string :=
  match l with
  | [] => []
  | x :: r => x :: List.filter (fun y => negb (String.eqb x y)) (distinct r)
  end.

(** The route's comment on the filter reads "Case-insensitive partial match
    for locations"; the expression is built inside the [try] block. *)
Definition get_locations {C : Collaborators} (db : list Property)
    (rq : gmap string string) : response :=
  match present (rq !! "search") with
  | Some search =>
      match new_RegExp_i search with
      | Some re =>
          let locations :=
            distinct (map p_location
                        (List.filter (fun d => RegExp_test re (p_location d)) db)) in
          LocationsResponse (length locations) locations
      | None => server_error
      end
  | None =>
      let locations := distinct (map p_location db) in
      LocationsResponse (length locations) locations
  end.

(** ** The state the single-listing routes work on *)

(** The listing collection in insertion order, and the identifiers of the
    images held by the asset store. *)
Record State : Type := {
  docs : list Property;
  cloud : gset string
}.

(** Identifiers are compared by their text: a path parameter is taken in
    the canonical text of the object id it is cast to. *)
Definition findById (id : string) (db : list Property) : option Property :=
  List.find (fun d => String.eqb (p_id d) id) db.

(** [doc.save()] of a document that was found: the stored document with
    that [_id] is replaced. *)
Definition save (p : Property) (db : list Property) : list Property :=
  map (fun d => if String.eqb (p_id d) (p_id p) then p else d) db.

Definition deleteOne (p : Property) (db : list Property) : list Property :=
  List.filter (fun d => negb (String.eqb (p_id d) (p_id p))) db.

(** [for (const img of property.images) await cloudinary.uploader.destroy(img.public_id)] *)
Definition destroy_images (imgs : list Image) (c : gset string) : gset string :=
  fold_left (fun acc img => acc ∖ {[ public_id img ]}) imgs c.

Definition with_views (p : Property) (v : Z) : Property :=
  {| p_id := p_id p; p_title := p_title p; p_description := p_description p;
     p_price := p_price p; p_location := p_location p; p_type := p_type p;
     p_amenities := p_amenities p; p_images := p_images p; p_agent := p_agent p;
     p_createdAt := p_createdAt p; p_bedrooms := p_bedrooms p;
     p_bathrooms := p_bathrooms p; p_squareFootage := p_squareFootage p;
     p_status := p_status p; p_views := v;
     p_locationCoordinates := p_locationCoordinates p |}.

Definition with_status (p : Property) (s : string) : Property :=
  {| p_id := p_id p; p_title := p_title p; p_description := p_description p;
     p_price := p_price p; p_location := p_location p; p_type := p_type p;
     p_amenities := p_amenities p; p_images := p_images p; p_agent := p_agent p;
     p_createdAt := p_createdAt p; p_bedrooms := p_bedrooms p;
     p_bathrooms := p_bathrooms p; p_squareFootage := p_squareFootage p;
     p_status := s; p_views := p_views p;
     p_locationCoordinates := p_locationCoordinates p |}.

Definition invalid_id : response := MessageResponse 400 false "Invalid property ID".
Definition not_found : response := MessageResponse 404 false "Property not found".
Definition not_authorized : response := MessageResponse 403 false "Not authorized".

(** ** GET /:id *)

(** [property.views += 1; await property.save(); res.json(...)].  The save
    validates the assigned path against the schema ([views]: min 0) and the
    other paths as [revalidates] says. *)
Definition get_property {C : Collaborators} (st : State) (id : string) : response * State :=
  if negb (isValidObjectId id) then (invalid_id, st)
  else match findById id (docs st) with
       | None => (not_found, st)
       | Some property =>
           let property := with_views property (p_views property + 1) in
           if (0 <=? p_views property) && revalidates property
           then (PropertyResponse 200 property,
                 {| docs := save property (docs st); cloud := cloud st |})
           else (server_error, st)
       end.

(** ** The owner-or-admin check *)

(** [property.agent.toString() === req.user._id.toString() || req.user.role === "admin"] *)
Definition isOwner (property : Property) (user : User) : bool :=
  String.eqb (p_agent property) (u_id user) || String.eqb (role user) "admin".

(** ** PATCH /:id/status *)

(** [["active", "sold", "pending", "rented"].includes(status)] *)
Definition includes_status (status : jsval) : bool :=
  match status with
  | JStr s => mem_string s status_values
  | _ => false
  end.

Definition patch_status {C : Collaborators} (st : State) (id : string) (user : User)
    (status : jsval) : response * State :=
  if negb (isValidObjectId id) then (invalid_id, st)
  else if negb (includes_status status)
  then (MessageResponse 400 false "Invalid status value", st)
  else match findById id (docs st) with
       | None => (not_found, st)
       | Some property =>
           if negb (isOwner property user) then (not_authorized, st)
           else
             let property :=
               with_status property
                 (match status with JStr s => s | _ => p_status property end) in
             if revalidates property
             then (PropertyResponse 200 property,
                   {| docs := save property (docs st); cloud := cloud st |})
             else (server_error, st)
       end.

(** ** DELETE /:id *)

Definition delete_property {C : Collaborators} (st : State) (id : string) (user : User)
    : response * State :=
  if negb (isValidObjectId id) then (invalid_id, st)
  else match findById id (docs st) with
       | None => (not_found, st)
       | Some property =>
           if negb (isOwner property user) then (not_authorized, st)
           else
             (MessageResponse 200 true "Property deleted",
              {| docs := deleteOne property (docs st);
                 cloud := destroy_images (p_images property) (cloud st) |})
       end.

(** ** Request bodies of POST / and PUT /:id

    Both routes run [upload.array("images", 5)] first.  A multipart form
    gives string fields and the list of uploaded files; for a JSON body the
    upload middleware does nothing, so [req.files] is undefined and the
    fields are the JSON values. *)

Record File : Type := { path : string; filename : string }.

Inductive payload : Type :=
| Multipart (fields : gmap string string) (uploaded : list File)
| Json (fields : gmap string jsval).

Definition body (req : payload) (k : string) : jsval :=
  match req with
  | Multipart f _ => match f !! k with Some s => JStr s | None => JUndefined end
  | Json f => default JUndefined (f !! k)
  end.

Definition files (req : payload) : option (list File) :=
  match req with
  | Multipart _ fs => Some fs
  | Json _ => None
  end.

Definition images_of (fs : list File) : list Image :=
  map (fun file => {| url := path file; public_id := filename file |}) fs.

(** *** Casting and validation by the schema *)

(** The cast of a value to a String path: a string is taken as it is, a
    number by its text ([value.toString()]), and an array is rejected;
    [undefined] leaves the path without a value. *)
Definition cast_string {C : Collaborators} (v : jsval) : option string :=
  match v with
  | JStr s => Some s
  | JNum n => Some (number_text n)
  | JArr _ => None
  | JUndefined => None
  end.

(** [{ type: String, required: true, trim: true }]: the cast value is
    trimmed and has to be a non-empty string. *)
Definition cast_required_string {C : Collaborators} (v : jsval) : option string :=
  match cast_string v with
  | Some s => let t := trim s in if String.eqb t "" then None else Some t
  | None => None
  end.

(** [{ type: Number, min: 0 }] *)
Definition cast_number_min0 (n : jsnum) : option jsnum :=
  if is_nan n then None
  else if jle (jint 0) n then Some n else None.

(** [{ type: String, enum: [...], required: true }] *)
Definition cast_type {C : Collaborators} (v : jsval) : option string :=
  match cast_string v with
  | Some s => if mem_string s property_types then Some s else None
  | None => None
  end.

(** [coordinates: { type: [Number] }] *)
Definition cast_point (lng lat : jsnum) : option GeoPoint :=
  if is_nan lng || is_nan lat then None
  else Some {| geo_type := "Point"; coordinates := [lng; lat] |}.

(** [Number(x) || 0] *)
Definition number_or_zero (v : jsval) : jsnum :=
  match js_or (JNum (Number v)) (JNum (jint 0)) with
  | JNum n => n
  | _ => jint 0
  end.

(** [amenities ? amenities.split(",").map((a) => a.trim()) : []]; only a
    string has [split]. *)
Definition create_amenities (v : jsval) : option (list string) :=
  if truthy v then
    match v with
    | JStr s => Some (map trim (split_comma s))
    | _ => None
    end
  else Some [].

(** [property.amenities = req.body.amenities || []], cast to an array of
    trimmed strings: a value that is no array is cast as the array of that
    one value, a number by its text. *)
Definition update_amenities {C : Collaborators} (v : jsval) : option (list string) :=
  match js_or v (JArr []) with
  | JArr l => Some (map trim l)
  | JStr s => Some [trim s]
  | JNum n => Some [trim (number_text n)]
  | JUndefined => None
  end.

(** [lat && lng ? { type: "Point", coordinates: [Number(lng), Number(lat)] } : undefined] *)
Definition supplied_point (lat lng : jsval) : option (option GeoPoint) :=
  if truthy (js_and lat lng)
  then option_map Some (cast_point (Number lng) (Number lat))
  else Some None.

(** ** POST / *)

Definition create_failed : response := MessageResponse 500 false "Failed to create property".

(** The document [Property.create] stores; [None] when [req.files.map],
    [amenities.split] or the schema throws. *)
Definition new_document {C : Collaborators} (fresh_id : string) (now : Z) (user : User)
    (req : payload) : option Property :=
  fs ← files req;
  title ← cast_required_string (body req "title");
  description ← cast_required_string (body req "description");
  price ← cast_number_min0 (Number (body req "price"));
  location ← cast_required_string (body req "location");
  type ← cast_type (body req "type");
  amenities ← create_amenities (body req "amenities");
  bedrooms ← cast_number_min0 (number_or_zero (body req "bedrooms"));
  bathrooms ← cast_number_min0 (number_or_zero (body req "bathrooms"));
  squareFootage ← cast_number_min0 (number_or_zero (body req "squareFootage"));
  point ← supplied_point (body req "lat") (body req "lng");
  Some {| p_id := fresh_id; p_title := title; p_description := description;
          p_price := price; p_location := location; p_type := type;
          p_amenities := amenities; p_images := images_of fs;
          p_agent := u_id user; p_createdAt := now;
          p_bedrooms := bedrooms; p_bathrooms := bathrooms;
          p_squareFootage := squareFootage; p_status := "active"; p_views := 0;
          p_locationCoordinates := default default_locationCoordinates point |}.

Definition create_property {C : Collaborators} (st : State) (fresh_id : string) (now : Z)
    (user : User) (req : payload) : response * State :=
  match new_document fresh_id now user req with
  | Some property =>
      (PropertyResponse 201 property,
       {| docs := docs st ++ [property]; cloud := cloud st |})
  | None => (create_failed, st)
  end.

(** ** PUT /:id *)

(** [if (req.files && req.files.length > 0)] *)
Definition new_files (req : payload) : option (list File) :=
  match files req with
  | Some (f :: fs) => Some (f :: fs)
  | _ => None
  end.

(** The field assignments of the route and the validation of [save]. *)
Definition updated_document {C : Collaborators} (property : Property) (req : payload)
    : option Property :=
  title ← cast_required_string (body req "title");
  description ← cast_required_string (body req "description");
  price ← cast_number_min0 (Number (body req "price"));
  location ← cast_required_string (body req "location");
  type ← cast_type (body req "type");
  amenities ← update_amenities (body req "amenities");
  bedrooms ← cast_number_min0 (number_or_zero (body req "bedrooms"));
  bathrooms ← cast_number_min0 (number_or_zero (body req "bathrooms"));
  squareFootage ← cast_number_min0 (number_or_zero (body req "squareFootage"));
  point ← supplied_point (body req "lat") (body req "lng");
  Some {| p_id := p_id property; p_title := title; p_description := description;
          p_price := price; p_location := location; p_type := type;
          p_amenities := amenities;
          p_images := match new_files req with
                      | Some fs => images_of fs
                      | None => p_images property
                      end;
          p_agent := p_agent property; p_createdAt := p_createdAt property;
          p_bedrooms := bedrooms; p_bathrooms := bathrooms;
          p_squareFootage := squareFootage; p_status := p_status property;
          p_views := p_views property;
          p_locationCoordinates := default (p_locationCoordinates property) point |}.

(** The old images are destroyed before the fields are assigned, so they
    are gone from the asset store also when [save] fails afterwards. *)
Definition update_property {C : Collaborators} (st : State) (id : string) (user : User)
    (req : payload) : response * State :=
  if negb (isValidObjectId id) then (invalid_id, st)
  else match findById id (docs st) with
       | None => (not_found, st)
       | Some property =>
           if negb (isOwner property user) then (not_authorized, st)
           else
             let cloud' := match new_files req with
                           | Some _ => destroy_images (p_images property) (cloud st)
                           | None => cloud st
                           end in
             match updated_document property req with
             | Some property' =>
                 if revalidates property'
                 then (PropertyResponse 200 property',
                       {| docs := save property' (docs st); cloud := cloud' |})
                 else (server_error, {| docs := docs st; cloud := cloud' |})
             | None => (server_error, {| docs := docs st; cloud := cloud' |})
             end
       end.

(** ** Vocabulary of the statements *)

Definition status_code (r : response) : option Z :=
  match r with
  | ListResponse _ => Some 200
  | PropertyResponse s _ => Some s
  | MessageResponse s _ _ => Some s
  | LocationsResponse _ _ => Some 200
  | Unhandled => None
  end.

(** [r] is the answer of the public or of the agent-scoped listing route. *)
Definition listing_response {C : Collaborators} (rev : revision) (db : list Property)
    (user : option User) (rq : gmap string string) (r : response) : Prop :=
  r = get_properties rev db rq \/ r = get_user_properties rev db user rq.

(** The response is a listing envelope whose page holds [p]. *)
Definition returned (r : response) (p : Property) : Prop :=
  exists e, r = ListResponse e /\ In p (properties e).

(** A string of white space only, and a string that starts or ends with
    white space: what [trim] removes and what it leaves. *)
Fixpoint all_ws (s : string) : bool :=
  match s with
  | EmptyString => true
  | String c r => is_ws c && all_ws r
  end.

Definition starts_with_ws (s : string) : bool :=
  match s with
  | EmptyString => false
  | String c _ => is_ws c
  end.

Fixpoint ends_with_ws (s : string) : bool :=
  match s with
  | EmptyString => false
  | String c r =>
      match r with
      | EmptyString => is_ws c
      | String _ _ => ends_with_ws r
      end
  end.

Definition is_finite (n : jsnum) : bool :=
  match n with
  | Fin _ => true
  | _ => false
  end.

(** The text of a number that is written with a minus sign: the only
    texts that [Number] reads as the negative zero are among them. *)
Definition minus_signed (s : string) : bool :=
  match trim s with
  | EmptyString => false
  | String c _ => Ascii.eqb c "-"%char
  end.

Definition numeric_params : list string :=
  ["priceMin"; "priceMax"; "squareFootageMin"; "squareFootageMax"; "bedrooms"; "bathrooms"].


(** Case-insensitive substring, as the specification states the location
    filter: [s] is a prefix of [t], or occurs in [t], up to ASCII case. *)
Fixpoint ci_prefix (s t : string) : bool :=
  match s, t with
  | EmptyString, _ => true
  | String a s', String b t' =>
      Ascii.eqb (upper_ascii a) (upper_ascii b) && ci_prefix s' t'
  | String _ _, EmptyString => false
  end.

Fixpoint ci_substring (s t : string) : bool :=
  ci_prefix s t ||
  match t with
  | EmptyString => false
  | String _ r => ci_substring s r
  end.

(** A string without regular expression syntax characters. *)
Fixpoint plain (s : string) : bool :=
  match s with
  | EmptyString => true
  | String c r => negb (mem_ascii c syntax_characters) && plain r
  end.

Fixpoint literals (s : string) : list atom :=
  match s with
  | EmptyString => []
  | String c r => Lit c :: literals r
  end.

(** ** Sample data of the examples *)

Fixpoint all_hex (s : string) : bool :=
  match s with
  | EmptyString => true
  | String c r => match digit_of 16 c with Some _ => all_hex r | None => false end
  end.

(** Identifiers of 24 hexadecimal digits. *)
Definition hex24 (id : string) : bool :=
  (String.length id =? 24)%nat && all_hex id.

(** Every validator of the schema on a stored document. *)
Definition schema_validates (p : Property) : bool :=
  negb (String.eqb (p_title p) "") && negb (String.eqb (p_description p) "") &&
  jle (jint 0) (p_price p) && negb (String.eqb (p_location p) "") &&
  mem_string (p_type p) property_types &&
  jle (jint 0) (p_bedrooms p) && jle (jint 0) (p_bathrooms p) &&
  jle (jint 0) (p_squareFootage p) &&
  mem_string (p_status p) status_values && (0 <=? p_views p).

Definition digit_char (d : Z) : ascii := ascii_of_nat (48 + Z.to_nat d).

(** The decimal digits of a natural number in front of [acc]. *)
Fixpoint digits_before (fuel : nat) (n : Z) (acc : string) : string :=
  match fuel with
  | O => acc
  | S f =>
      let acc' := String (digit_char (n mod 10)) acc in
      if n <? 10 then acc' else digits_before f (n / 10) acc'
  end.

Definition natural_text (n : Z) : string :=
  digits_before (S (Z.to_nat (Z.log2 n))) n "".

(** The digits of [r / d] after the decimal point, at most [fuel] of them. *)
Fixpoint fraction_digits (fuel : nat) (r d : Z) : string :=
  match fuel with
  | O => ""
  | S f =>
      if r =? 0 then ""
      else String (digit_char (r * 10 / d)) (fraction_digits f (r * 10 mod d) d)
  end.

(** The text of a number in the examples: a decimal without exponent, as
    [toString] prints the integers and short decimals that occur there. *)
Definition sample_number_text (n : jsnum) : string :=
  match n with
  | NaN => "NaN"
  | PosInf => "Infinity"
  | NegInf => "-Infinity"
  | Fin q =>
      let d := Z.pos (Qden q) in
      let a := Z.abs (Qnum q) in
      String.append (if Qnum q <? 0 then "-" else "")
        (String.append (natural_text (a / d))
           (if a mod d =? 0 then ""
            else String.append "." (fraction_digits 20 (a mod d) d)))
  end.

(** Collaborators for the examples: identifiers are 24 hexadecimal digits;
    there is no text index, no geospatial index and no regular expression
    engine beyond the interpreted fragment; [save] validates every path. *)
Definition sample_collaborators : Collaborators := {|
  isValidObjectId := hex24;
  regexp_engine := fun _ => None;
  textMatches := fun _ _ => false;
  geoSelect := fun _ => None;
  revalidates := schema_validates;
  number_text := sample_number_text
|}.

Definition agent_a : User := {| u_id := "64b7f0c2a1d3e4f5a6b7c801"; role := "agent" |}.
Definition agent_b : User := {| u_id := "64b7f0c2a1d3e4f5a6b7c802"; role := "agent" |}.

Definition sample_listing (id : string) (created price : Z) (loc : string)
    (tags : list string) : Property :=
  {| p_id := id; p_title := "Listing"; p_description := "A listing";
     p_price := jint price; p_location := loc; p_type := "house";
     p_amenities := tags;
     p_images := [{| url := "https://assets.example/" ++ id; public_id := id |}];
     p_agent := u_id agent_a; p_createdAt := created;
     p_bedrooms := jint 3; p_bathrooms := jint 2; p_squareFootage := jint 1200;
     p_status := "active"; p_views := 0;
     p_locationCoordinates := default_locationCoordinates |}.

(** The listing of the specification's scenario. *)
Definition villa : Property :=
  sample_listing "64b7f0c2a1d3e4f5a6b7c8d9" 1 250000 "Ikoyi, Lagos" ["pool"; "garage"].

Definition pool_flat : Property :=
  sample_listing "64b7f0c2a1d3e4f5a6b7c8da" 2 90000 "Abuja" ["pool"].

Definition sample_state : State :=
  {| docs := [villa; pool_flat];
     cloud := {[ "64b7f0c2a1d3e4f5a6b7c8d9"; "64b7f0c2a1d3e4f5a6b7c8da" ]} |}.

Definition missing_id : string := "64b7f0c2a1d3e4f5a6b7c8ff".

Definition pool_only : gmap string string := {[ "amenities" := "pool" ]}.
Definition pool_and_gym : gmap string string := {[ "amenities" := "pool,gym" ]}.

(** The identifier of the sample listing created at time [n], for [n] below 100. *)
Definition sample_id (n : nat) : string :=
  "64b7f0c2a1d3e4f5a6b7c9" ++
  String (ascii_of_nat (48 + n / 10)) (String (ascii_of_nat (48 + n mod 10)) "").

Definition numbered_listing (n : nat) : Property :=
  sample_listing (sample_id n) (Z.of_nat n) 100000 "Lagos" [].

(** Twelve listings, created at times 0 to 11. *)
Definition twelve_listings : list Property := map numbered_listing (seq 0 12).

Definition page_two_of_five : gmap string string := {[ "page" := "2"; "limit" := "5" ]}.

Definition page_two_envelope : Envelope :=
  {| success := true; count := 5; total := 12; page := jint 2; pages := jint 3;
     properties := map numbered_listing [6; 5; 4; 3; 2]%nat |}.

(** A valid multipart form for a listing on the equator. *)
Definition equator_form : gmap string string :=
  {[ "title" := "Plot"; "description" := "On the equator"; "price" := "1000";
     "location" := "Libreville"; "type" := "land"; "lat" := "0"; "lng" := "10" ]}.

(** The same fields as a JSON body, with numbers. *)
Definition equator_json : gmap string jsval :=
  {[ "title" := JStr "Plot"; "description" := JStr "On the equator";
     "price" := JNum (jint 1000); "location" := JStr "Libreville";
     "type" := JStr "land"; "lat" := JNum (jint 0); "lng" := JNum (jint 10) ]}.

Definition empty_state : State := {| docs := []; cloud := ∅ |}.

Definition ikoyi_dot : gmap string string := {[ "location" := "Ikoyi." ]}.
Definition search_ikoyi_dot : gmap string string := {[ "search" := "Ikoyi." ]}.

(** The listing [create_property] stores for [equator_form]. *)
Definition equator_plot (id : string) (now : Z) : Property :=
  {| p_id := id; p_title := "Plot"; p_description := "On the equator";
     p_price := jint 1000; p_location := "Libreville"; p_type := "land";
     p_amenities := []; p_images := []; p_agent := u_id agent_a;
     p_createdAt := now;
     p_bedrooms := jint 0; p_bathrooms := jint 0; p_squareFootage := jint 0;
     p_status := "active"; p_views := 0;
     p_locationCoordinates :=
       {| geo_type := "Point"; coordinates := [jint 10; jint 0] |} |}.
Definition empty_priceMin : gmap string string := {[ "priceMin" := "" ]}.
Definition abc_priceMin : gmap string string := {[ "priceMin" := "abc" ]}.

(** [villa] after a full update with [equator_json]. *)
Definition updated_villa : Property :=
  {| p_id := p_id villa; p_title := "Plot"; p_description := "On the equator";
     p_price := jint 1000; p_location := "Libreville"; p_type := "land";
     p_amenities := []; p_images := p_images villa; p_agent := p_agent villa;
     p_createdAt := p_createdAt villa;
     p_bedrooms := jint 0; p_bathrooms := jint 0; p_squareFootage := jint 0;
     p_status := p_status villa; p_views := p_views villa;
     p_locationCoordinates := p_locationCoordinates villa |}.


(** ** Further routes and vocabulary *)

(** The names [router.get("/")] reads from [req.query]. *)
Definition public_params : list string :=
  ["location"; "priceMin"; "priceMax"; "type"; "amenities"; "bedrooms"; "bathrooms";
   "squareFootageMin"; "squareFootageMax"; "search"; "lat"; "lng"; "radius";
   "page"; "limit"; "sort"; "order"].

(** [router.get("/user")] reads [status] as well. *)
Definition user_params : list string := "status" :: public_params.

(** The request with the default written out where a paging or sorting
    parameter is absent. *)
Definition with_default (k v : string) (rq : gmap string string) : gmap string string :=
  match rq !! k with
  | Some _ => rq
  | None => <[k := v]> rq
  end.

Definition with_defaults (rq : gmap string string) : gmap string string :=
  with_default "page" "1"
    (with_default "limit" "10"
       (with_default "sort" "createdAt" (with_default "order" "desc" rq))).

(** The request without the three geospatial parameters. *)
Definition without_geo (rq : gmap string string) : gmap string string :=
  delete "lat" (delete "lng" (delete "radius" rq)).

(** ** GET /analytics *)

Record Analytics : Type := {
  totalListings : nat;
  avgPrice : jsnum;
  totalViews : Z;
  typeDistribution : list (string * nat)
}.

Inductive analytics_response : Type :=
| AnalyticsResponse (a : Analytics)
| AnalyticsMessage (status : Z) (ok : bool) (message : string).

(** [Property.find({ agent: req.user._id })] *)
Definition listings_of (u : User) (db : list Property) : list Property :=
  List.filter (fun p => String.eqb (p_agent p) (u_id u)) db.

(** [properties.reduce((sum, p) => sum + p.price, 0)] *)
Definition sum_prices (l : list Property) : jsnum :=
  fold_left (fun sum p => jadd sum (p_price p)) l (jint 0).

(** [properties.reduce((sum, p) => sum + p.views, 0)] *)
Definition sum_views (l : list Property) : Z :=
  fold_left (fun sum p => sum + p_views p) l 0.

(** [properties.filter((p) => p.type === type).length] *)
Definition count_type (type : string) (l : list Property) : nat :=
  length (List.filter (fun p => String.eqb (p_type p) type) l).

Definition analytics_of (properties : list Property) : Analytics :=
  {| totalListings := length properties;
     avgPrice := match properties with
                 | [] => jint 0
                 | _ => jdiv (sum_prices properties) (jint (Z.of_nat (length properties)))
                 end;
     totalViews := sum_views properties;
     typeDistribution :=
       map (fun type => (type, count_type type properties)) property_types |}.

Definition get_analytics (db : list Property) (user : option User) : analytics_response :=
  match user with
  | None => AnalyticsMessage 401 false "User not authenticated"
  | Some u => AnalyticsResponse (analytics_of (listings_of u db))
  end.

(** ** DELETE /api/admin/properties/:id (routes/admin)

    The route has no identifier check: [findById] throws on an identifier
    it cannot cast and the [catch] answers 500.  [remove_available] says
    whether the installed document class still has [remove]; without it the
    call throws. *)
Inductive admin_response : Type :=
| AdminMessage (status : Z) (message : string).

Definition admin_delete_property {C : Collaborators} (remove_available : bool)
    (st : State) (id : string) : admin_response * State :=
  if negb (isValidObjectId id) then (AdminMessage 500 "Server error", st)
  else match findById id (docs st) with
       | None => (AdminMessage 404 "Property not found", st)
       | Some property =>
           if remove_available
           then (AdminMessage 200 "Property deleted",
                 {| docs := deleteOne property (docs st); cloud := cloud st |})
           else (AdminMessage 500 "Server error", st)
       end.

(** The names [router.post("/")] reads from [req.body]. *)
Definition create_fields : list string :=
  ["title"; "description"; "price"; "location"; "type"; "amenities"; "bedrooms";
   "bathrooms"; "squareFootage"; "lat"; "lng"].

(** No two documents of the collection share an identifier. *)
Definition unique_ids (db : list Property) : Prop := NoDup (map p_id db).

(** ** Sample data of the further examples *)

(** The form of [equator_form] with two amenities in one string. *)
Definition gym_form : gmap string string := <["amenities" := "pool, gym"]> equator_form.

Definition one_upload : list File :=
  [{| path := "https://assets.example/new"; filename := "new" |}].

(** Two listings at one location and one at another. *)
Definition three_listings : list Property :=
  [villa; pool_flat;
   sample_listing "64b7f0c2a1d3e4f5a6b7c8db" 3 120000 "Abuja" []].

(** Two tags with white space around them. *)
Definition padded_pool_garage : gmap string string :=
  {[ "amenities" := " pool , garage " ]}.

(** [equator_form] with a title of three spaces: [validateProperty] lets
    it pass ([notEmpty] does not trim), the schema trims it to nothing. *)
Definition blank_title_form : gmap string string := <["title" := "   "]> equator_form.

(** [equator_json] with a number as title and a number as amenities. *)
Definition numeric_json : gmap string jsval :=
  <["title" := JNum (jint 123)]> (<["amenities" := JNum (jint 5)]> equator_json).

(** [villa] after a full update with [numeric_json]. *)
Definition numeric_villa : Property :=
  {| p_id := p_id villa; p_title := "123"; p_description := "On the equator";
     p_price := jint 1000; p_location := "Libreville"; p_type := "land";
     p_amenities := ["5"]; p_images := p_images villa; p_agent := p_agent villa;
     p_createdAt := p_createdAt villa;
     p_bedrooms := jint 0; p_bathrooms := jint 0; p_squareFootage := jint 0;
     p_status := p_status villa; p_views := p_views villa;
     p_locationCoordinates := p_locationCoordinates villa |}.

(** * Proofs *)

(** ** Samples of the string functions *)

Example StringToNumber_samples :
  StringToNumber "250000" = jint 250000 /\
  StringToNumber " 12.50 " = Fin (25 # 2) /\
  StringToNumber "-3e2" = jint (-300) /\
  StringToNumber ".5" = Fin (1 # 2) /\
  StringToNumber "1e-2" = Fin (1 # 100) /\
  StringToNumber "0x1F" = jint 31 /\
  StringToNumber "" = jint 0 /\
  StringToNumber "abc" = NaN /\
  StringToNumber "12px" = NaN /\
  StringToNumber "1e" = NaN /\
  StringToNumber "." = NaN /\
  StringToNumber "-Infinity" = NegInf.
Proof. repeat split; vm_compute; reflexivity. Qed.

Example split_trim_samples :
  map trim (split_comma "pool, gym ,garage") = ["pool"; "gym"; "garage"] /\
  split_comma "" = [""] /\
  split_comma "a,,b," = ["a"; ""; "b"; ""].
Proof. repeat split. Qed.


Lemma insert_sorted_perm le x l : Permutation (insert_sorted le x l) (x :: l).
Proof.
  induction l as [|y r IH]; simpl.
  - reflexivity.
  - destruct (le x y).
    + reflexivity.
    + rewrite IH. apply perm_swap.
Qed.

Lemma sort_by_perm f o l : Permutation (sort_by f o l) l.
Proof.
  unfold sort_by. induction l as [|x r IH]; simpl.
  - reflexivity.
  - rewrite insert_sorted_perm. now apply perm_skip.
Qed.

Lemma sort_by_length f o l : length (sort_by f o l) = length l.
Proof. apply Permutation_length, sort_by_perm. Qed.

Lemma sort_by_In f o l x : In x (sort_by f o l) <-> In x l.
Proof.
  split; apply Permutation_in; [|symmetry]; apply sort_by_perm.
Qed.

Lemma mem_string_In s l : mem_string s l = true <-> In s l.
Proof.
  unfold mem_string. rewrite existsb_exists. split.
  - intros (x & Hx & E). apply String.eqb_eq in E. now subst.
  - intros Hs. exists s. split; [assumption|apply String.eqb_refl].
Qed.

Lemma all_in_In tags arr :
  all_in tags arr = true -> forall t, In t tags -> In t arr.
Proof.
  intros Hall t Ht. destruct tags as [|t0 r]; [contradiction|].
  unfold all_in in Hall. rewrite forallb_forall in Hall.
  apply mem_string_In, Hall, Ht.
Qed.

Lemma skip_In n l l' x : skip n l = Some l' -> In x l' -> In x l.
Proof.
  unfold skip. destruct (as_integer n) as [z|]; [|discriminate].
  destruct (0 <=? z); [|discriminate]. intros [= <-] Hx.
  rewrite <- (firstn_skipn (Z.to_nat z) l). apply in_or_app. now right.
Qed.

Lemma limit_In n l l' x : limit n l = Some l' -> In x l' -> In x l.
Proof.
  unfold limit. destruct (as_integer n) as [[|z|z]|]; try discriminate;
    intros [= <-] Hx; trivial;
    match goal with H : In _ (firstn ?k _) |- _ =>
      rewrite <- (firstn_skipn k l); apply in_or_app; now left end.
Qed.




(** *** Arithmetic of integer-valued numbers *)

Lemma Qred_int (z : Z) : Qred (z # 1) = z # 1.
Proof.
  unfold Qred.
  pose proof (Z.ggcd_gcd z 1) as G.
  pose proof (Z.ggcd_correct_divisors z 1) as D.
  destruct (Z.ggcd z 1) as [g [a b]]. simpl in *.
  rewrite Z.gcd_1_r in G. subst g. destruct D as [Da Db].
  rewrite Z.mul_1_l in Da, Db. now subst.
Qed.

Lemma jsub_int (a b : Z) : jsub (jint a) (jint b) = jint (a - b).
Proof.
  unfold jsub, jneg, jadd, jint. f_equal.
  change (Qopp (b # 1)) with (- b # 1). rewrite Qred_int.
  unfold Qplus. simpl. rewrite !Z.mul_1_r. apply Qred_int.
Qed.

Lemma jmul_int (a b : Z) : jmul (jint a) (jint b) = jint (a * b).
Proof.
  unfold jmul, jint. f_equal. unfold Qmult. simpl. apply Qred_int.
Qed.

Section Listing.
Context {C : Collaborators}.

(** What a listing envelope says about the pipeline that produced it. *)
Lemma run_listing_envelope db q rq e :
  run_listing db q rq = ListResponse e ->
  exists f l0,
    selector q = Some f /\
    total e = length (List.filter f db) /\
    skip (jmul (jsub (page_of rq) (jint 1)) (limit_of rq))
         (sort_by (sort_of rq) (order_of rq) (List.filter f db)) = Some l0 /\
    limit (limit_of rq) l0 = Some (properties e) /\
    count e = length (properties e) /\
    pages e = Math_ceil (jdiv (jint (Z.of_nat (total e))) (limit_of rq)).
Proof.
  unfold run_listing, countDocuments, find.
  destruct (selector q) as [f|]; simpl; [|discriminate].
  destruct (String.eqb (sort_of rq) ""); [discriminate|].
  destruct (skip _ _) as [l0|] eqn:Hskip; [|discriminate].
  destruct (limit _ l0) as [l|] eqn:Hlimit; [|discriminate].
  intros [= <-]. exists f, l0. simpl. auto 10.
Qed.

Lemma run_listing_sort db q rq e :
  run_listing db q rq = ListResponse e -> String.eqb (sort_of rq) "" = false.
Proof.
  unfold run_listing, find. destruct (countDocuments q db); [|discriminate].
  destruct (String.eqb (sort_of rq) ""); [discriminate|reflexivity].
Qed.


Lemma listing_response_query rev db user rq e :
  listing_response rev db user rq (ListResponse e) ->
  exists a q, build_query rev a rq = Some q /\ run_listing db q rq = ListResponse e.
Proof.
  intros [E|E]; symmetry in E.
  - unfold get_properties in E.
    destruct (build_query rev None rq) as [q|] eqn:B; [|discriminate]. eauto.
  - unfold get_user_properties in E. destruct user as [u|]; [|discriminate].
    destruct (build_query rev (Some (u_id u)) rq) as [q|] eqn:B; [|discriminate]. eauto.
Qed.

Lemma build_query_amenities rev a rq q :
  build_query rev a rq = Some q ->
  q_amenities_all q = amenities_filter (rq !! "amenities").
Proof.
  unfold build_query.
  destruct (match present (rq !! "location") with Some _ => _ | None => _ end);
    [|discriminate].
  now intros [= <-].
Qed.

Lemma selector_matches_fields q f p :
  selector q = Some f -> f p = true -> matches_fields q p = true.
Proof.
  unfold selector. destruct (cast_fails q); [discriminate|].
  destruct (q_locationCoordinates q) as [g|].
  - destruct (geoSelect g); [|discriminate]. intros [= <-] E.
    now apply andb_true_iff in E.
  - now intros [= <-].
Qed.

Lemma matches_fields_amenities q p tags :
  matches_fields q p = true -> q_amenities_all q = Some tags ->
  all_in tags (p_amenities p) = true.
Proof.
  unfold matches_fields. intros E Hq. rewrite Hq in E. simpl in E.
  repeat (apply andb_true_iff in E; destruct E as [E ?]). assumption.
Qed.

Lemma returned_selected db q rq e p :
  run_listing db q rq = ListResponse e -> In p (properties e) ->
  In p db /\ matches_fields q p = true.
Proof.
  intros R Hp. apply run_listing_envelope in R.
  destruct R as (f & l0 & Hsel & _ & Hskip & Hlim & _).
  eapply limit_In in Hp; [|eassumption].
  eapply skip_In in Hp; [|eassumption].
  apply sort_by_In, filter_In in Hp. destruct Hp as [Hdb Hf].
  split; [assumption|]. eapply selector_matches_fields; eassumption.
Qed.

End Listing.





Section ListingClaims.
Context {C : Collaborators}.

Lemma skip_zero (l : list Property) : skip (jint 0) l = Some l.
Proof. reflexivity. Qed.

Lemma limit_ten_all (l : list Property) :
  (length l <= 10)%nat -> limit (jint 10) l = Some l.
Proof.
  intros Hl. unfold limit. simpl. f_equal. apply firstn_all2.
  change (Pos.to_nat 10) with 10%nat. lia.
Qed.

Lemma split_comma_not_nil s : split_comma s <> [].
Proof.
  destruct s as [|c r]; cbn [split_comma]; [discriminate|].
  destruct (Ascii.eqb c ","%char); [discriminate|].
  destruct (split_comma r); discriminate.
Qed.

Lemma append_empty s : String.append "" s = s.
Proof. reflexivity. Qed.

Lemma append_cons c a s : String.append (String c a) s = String c (String.append a s).
Proof. reflexivity. Qed.

(** [split(",")] by its pieces: a piece without a comma in front of a
    comma is the first piece, and a string without a comma is its only
    piece. *)
Lemma split_comma_piece a s :
  mem_ascii ","%char a = false ->
  split_comma (String.append a (String ","%char s)) = a :: split_comma s.
Proof.
  induction a as [|c a IH]; rewrite ?append_empty, ?append_cons;
    cbn [split_comma mem_ascii]; intros H.
  - rewrite Ascii.eqb_refl. reflexivity.
  - apply orb_false_iff in H. destruct H as [Hc Ha].
    rewrite Ascii.eqb_sym, Hc, (IH Ha). reflexivity.
Qed.

Lemma split_comma_last a : mem_ascii ","%char a = false -> split_comma a = [a].
Proof.
  induction a as [|c a IH]; cbn [split_comma mem_ascii]; intros H; [reflexivity|].
  apply orb_false_iff in H. destruct H as [Hc Ha].
  rewrite Ascii.eqb_sym, Hc, (IH Ha). reflexivity.
Qed.

Lemma trim_start_ws l s : all_ws l = true -> trim_start (String.append l s) = trim_start s.
Proof.
  induction l as [|c l IH]; rewrite ?append_empty, ?append_cons;
    cbn [all_ws trim_start]; intros H; [reflexivity|].
  apply andb_true_iff in H. destruct H as [-> Hl]. auto.
Qed.

Lemma trim_start_all_ws r : all_ws r = true -> trim_start r = "".
Proof.
  induction r as [|c r IH]; cbn [all_ws trim_start]; intros H; [reflexivity|].
  apply andb_true_iff in H. destruct H as [-> Hr]. auto.
Qed.

Lemma trim_end_all_ws r : all_ws r = true -> trim_end r = "".
Proof.
  induction r as [|c r IH]; cbn [all_ws trim_end]; intros H; [reflexivity|].
  apply andb_true_iff in H. destruct H as [Hc Hr]. now rewrite (IH Hr), Hc.
Qed.

Lemma trim_end_ws t r :
  ends_with_ws t = false -> all_ws r = true -> trim_end (String.append t r) = t.
Proof.
  intros Ht Hr. induction t as [|c t IH]; rewrite ?append_empty, ?append_cons.
  - now apply trim_end_all_ws.
  - cbn [trim_end]. destruct t as [|d t].
    + rewrite append_empty, (trim_end_all_ws r Hr).
      cbn [ends_with_ws] in Ht. now rewrite Ht.
    + rewrite IH by exact Ht. reflexivity.
Qed.

(** [trim] by what it removes: white space around a string that neither
    starts nor ends with white space. *)
Lemma trim_padded l t r :
  all_ws l = true -> all_ws r = true ->
  starts_with_ws t = false -> ends_with_ws t = false ->
  trim (String.append l (String.append t r)) = t.
Proof.
  intros Hl Hr Hs He. unfold trim. rewrite trim_start_ws by exact Hl.
  destruct t as [|c t].
  - rewrite append_empty. now rewrite trim_start_all_ws.
  - rewrite append_cons. cbn [trim_start]. cbn [starts_with_ws] in Hs. rewrite Hs.
    rewrite <- append_cons. exact (trim_end_ws (String c t) r He Hr).
Qed.

(** A request with [amenities] as its only parameter returns, from a
    collection that fits the first page, every listing that has all the
    tags. *)
Lemma amenities_only_returned (rev : revision) (a : option string) (db : list Property)
    (p : Property) (s : string) :
  s <> "" -> opt_holds a (String.eqb (p_agent p)) = true ->
  In p db -> (length db <= 10)%nat ->
  (forall t, In t (map trim (split_comma s)) -> In t (p_amenities p)) ->
  exists q, build_query rev a {[ "amenities" := s ]} = Some q /\
            returned (run_listing db q {[ "amenities" := s ]}) p.
Proof.
  intros Hs Ha Hdb Hlen Htags. apply String.eqb_neq in Hs.
  assert (Hall : all_in (map trim (split_comma s)) (p_amenities p) = true).
  { unfold all_in. destruct (map trim (split_comma s)) as [|t0 ts] eqn:Et.
    - apply map_eq_nil in Et. now apply split_comma_not_nil in Et.
    - apply forallb_forall. intros t Ht. apply mem_string_In. now apply Htags. }
  set (rq := ({[ "amenities" := s ]} : gmap string string)).
  assert (Hq : build_query rev a rq =
    Some {| q_agent := a; q_text := None; q_locationCoordinates := None;
            q_location := None; q_type := None;
            q_amenities_all := Some (map trim (split_comma s)); q_bedrooms := None;
            q_bathrooms := None;
            q_status := None; q_price := None; q_squareFootage := None |}).
  { unfold build_query, geo_filter, amenities_filter, range_filter, rq.
    rewrite lookup_singleton_eq.
    rewrite !lookup_singleton_ne by (intros E; apply String.eqb_eq in E; discriminate E).
    unfold present. rewrite Hs. simpl. now destruct a. }
  eexists. split; [exact Hq|].
  unfold run_listing, countDocuments, find, selector. simpl.
  set (f := matches_fields _).
  change (page_of rq) with (jint 1).
  change (limit_of rq) with (jint 10).
  change (sort_of rq) with "createdAt".
  change (jmul (jsub (jint 1) (jint 1)) (jint 10)) with (jint 0).
  change (String.eqb "createdAt" "") with false. cbv iota.
  rewrite skip_zero, limit_ten_all.
  - eexists. split; [reflexivity|]. simpl.
    apply sort_by_In, filter_In. split; [assumption|].
    unfold f, matches_fields.
    cbn [q_agent q_text q_location q_type q_amenities_all q_bedrooms q_bathrooms
         q_status q_price q_squareFootage opt_holds].
    rewrite Ha, Hall. reflexivity.
  - rewrite sort_by_length. etransitivity; [apply filter_length_le|exact Hlen].
Qed.

(** Claim C1.  On the public and on the agent-scoped listing route, in both
    revisions: when [amenities] is a non-empty comma-separated list, a
    listing is in the returned page only if its amenities contain every
    trimmed tag of the list.  A listing whose amenities are exactly [pool]
    is never returned for [amenities=pool,gym]; for [amenities=pool] alone
    it is returned (from a dataset that fits the first page, and on the
    agent-scoped route when the requester is its agent).

    The tags of a list are the pieces between its commas without the
    white space around them: a piece without a comma in front of a comma
    is the first piece, a string without a comma is its only piece, and
    trimming removes the white space around a string that neither starts
    nor ends with white space.  A request with [amenities] alone returns
    every listing that has all the tags (from a dataset that fits the
    first page), so a padded list of two tags returns the listings that
    have both. *)
Theorem amenities_filter_is_all_of (rev : revision) (db : list Property)
    (user : option User) :
  (forall rq r s p,
      listing_response rev db user rq r ->
      rq !! "amenities" = Some s -> s <> "" -> returned r p ->
      forall t, In t (map trim (split_comma s)) -> In t (p_amenities p)) /\
  (forall rq r p,
      listing_response rev db user rq r ->
      rq !! "amenities" = Some "pool,gym" -> p_amenities p = ["pool"] ->
      ~ returned r p) /\
  (forall p,
      p_amenities p = ["pool"] -> In p db -> (length db <= 10)%nat ->
      returned (get_properties rev db pool_only) p /\
      forall u, p_agent p = u_id u ->
                returned (get_user_properties rev db (Some u) pool_only) p) /\
  (forall a s, mem_ascii ","%char a = false ->
      split_comma (String.append a (String ","%char s)) = a :: split_comma s) /\
  (forall a, mem_ascii ","%char a = false -> split_comma a = [a]) /\
  (forall l t r,
      all_ws l = true -> all_ws r = true ->
      starts_with_ws t = false -> ends_with_ws t = false ->
      trim (String.append l (String.append t r)) = t) /\
  (forall s p,
      s <> "" -> In p db -> (length db <= 10)%nat ->
      (forall t, In t (map trim (split_comma s)) -> In t (p_amenities p)) ->
      returned (get_properties rev db {[ "amenities" := s ]}) p /\
      forall u, p_agent p = u_id u ->
                returned (get_user_properties rev db (Some u) {[ "amenities" := s ]}) p).
Proof.
  assert (General : forall rq r s p,
      listing_response rev db user rq r ->
      rq !! "amenities" = Some s -> s <> "" -> returned r p ->
      forall t, In t (map trim (split_comma s)) -> In t (p_amenities p)).
  { intros rq r s p Hr Hs Hne (e & -> & Hp) t Ht.
    destruct (listing_response_query _ _ _ _ _ Hr) as (a & q & B & R).
    destruct (returned_selected _ _ _ _ _ R Hp) as [_ Hm].
    apply build_query_amenities in B. rewrite Hs in B. unfold amenities_filter, present in B.
    destruct (String.eqb_spec s "") as [->|_]; [contradiction|].
    eapply all_in_In; [|exact Ht].
    eapply matches_fields_amenities; eassumption. }
  assert (Positive : forall s p,
      s <> "" -> In p db -> (length db <= 10)%nat ->
      (forall t, In t (map trim (split_comma s)) -> In t (p_amenities p)) ->
      returned (get_properties rev db {[ "amenities" := s ]}) p /\
      forall u, p_agent p = u_id u ->
                returned (get_user_properties rev db (Some u) {[ "amenities" := s ]}) p).
  { intros s p Hs Hdb Hlen Htags. split.
    - destruct (amenities_only_returned rev None db p s Hs eq_refl Hdb Hlen Htags)
        as (q & B & R).
      unfold get_properties. now rewrite B.
    - intros u Hu.
      destruct (amenities_only_returned rev (Some (u_id u)) db p s Hs
                  ltac:(simpl; rewrite Hu; apply String.eqb_refl) Hdb Hlen Htags)
        as (q & B & R).
      unfold get_user_properties. now rewrite B. }
  split; [exact General|]. split; [|split].
  - intros rq r p Hr Hs Hp Hret.
    assert (Hgym : In "gym" (p_amenities p)).
    { eapply (General rq r "pool,gym" p); try eassumption; [discriminate|].
      simpl. auto. }
    rewrite Hp in Hgym. destruct Hgym as [E|[]]. discriminate.
  - intros p Hp Hdb Hlen.
    apply (Positive "pool" p); [discriminate|assumption|assumption|].
    rewrite Hp. simpl. tauto.
  - split; [exact split_comma_piece|]. split; [exact split_comma_last|].
    split; [exact trim_padded|exact Positive].
Qed.





Lemma run_listing_delete db q rq k :
  k <> "page" -> k <> "limit" -> k <> "sort" -> k <> "order" ->
  run_listing db q (delete k rq) = run_listing db q rq.
Proof.
  intros. unfold run_listing, page_of, limit_of, sort_of, order_of.
  now rewrite !lookup_delete_ne by assumption.
Qed.

Lemma build_query_delete_empty rev a rq k :
  In k numeric_params -> rq !! k = Some "" ->
  build_query rev a (delete k rq) = build_query rev a rq.
Proof.
  intros Hk Hs. unfold build_query, numeric_params in *.
  repeat (destruct Hk as [<-|Hk]); try contradiction;
    rewrite ?lookup_delete_eq, ?Hs;
    rewrite !lookup_delete_ne by (intros E; apply String.eqb_eq in E; discriminate E);
    reflexivity.
Qed.

Lemma nan_operand_cast_fails rev a rq k s q :
  In k numeric_params -> rq !! k = Some s -> s <> "" -> StringToNumber s = NaN ->
  build_query rev a rq = Some q -> cast_fails q = true.
Proof.
  intros Hk Hs Hne Hnan B. unfold build_query in B.
  destruct (match present (rq !! "location") with Some _ => _ | None => _ end);
    [|discriminate].
  injection B as <-.
  assert (Hp : present (Some s) = Some s).
  { unfold present. now destruct (String.eqb_spec s ""). }
  unfold cast_fails, numeric_params in *. simpl.
  repeat (destruct Hk as [<-|Hk]); try contradiction;
    rewrite Hs; unfold range_filter; rewrite Hp; simpl; rewrite ?Hnan; simpl;
    repeat match goal with
           | |- context [present ?o] => destruct (present o)
           end; simpl; rewrite ?Hnan, ?orb_true_r; reflexivity.
Qed.

Lemma run_listing_cast_fails db q rq :
  cast_fails q = true -> run_listing db q rq = server_error.
Proof.
  intros E. unfold run_listing, countDocuments, selector. now rewrite E.
Qed.

(** Claim C4, as amended.  A numeric filter parameter that is present but
    empty is treated as absent: both routes answer as if the parameter had
    been removed.  A non-empty value that [Number] turns into NaN is not
    dropped: it stays in the query, the cast of the query fails, and
    neither route answers with a listing envelope (the [try] block answers
    500 Server Error). *)
Theorem numeric_filter_empty_or_rejected (rev : revision) (db : list Property)
    (user : option User) (rq : gmap string string) (k s : string) :
  In k numeric_params -> rq !! k = Some s ->
  (s = "" ->
   get_properties rev db rq = get_properties rev db (delete k rq) /\
   get_user_properties rev db user rq = get_user_properties rev db user (delete k rq)) /\
  (s <> "" -> StringToNumber s = NaN ->
   (forall a q, build_query rev a rq = Some q -> run_listing db q rq = server_error) /\
   forall r e, listing_response rev db user rq r -> r <> ListResponse e).
Proof.
  intros Hk Hs. split.
  - intros ->. unfold get_properties, get_user_properties.
    assert (Hr : forall q, run_listing db q (delete k rq) = run_listing db q rq).
    { intros q. apply run_listing_delete;
        intros ->; unfold numeric_params in Hk; simpl in Hk;
        intuition discriminate. }
    rewrite !build_query_delete_empty by assumption.
    split.
    + destruct (build_query rev None rq); [now rewrite Hr|reflexivity].
    + destruct user as [u|]; [|reflexivity].
      rewrite build_query_delete_empty by assumption.
      destruct (build_query rev (Some (u_id u)) rq); [now rewrite Hr|reflexivity].
  - intros Hne Hnan.
    assert (Hq : forall a q, build_query rev a rq = Some q ->
                             run_listing db q rq = server_error).
    { intros a q B. apply run_listing_cast_fails.
      eapply nan_operand_cast_fails; eassumption. }
    split; [exact Hq|].
    intros r e Hr ->.
    destruct (listing_response_query _ _ _ _ _ Hr) as (a & q & B & R).
    rewrite (Hq a q B) in R. discriminate.
Qed.

(** The listing routes answer with an envelope when the query casts, the
    store accepts the geospatial filter, and [page] and [limit] are
    positive integers. *)
Lemma listing_answers db q rq (P L : positive) :
  cast_fails q = false ->
  (forall g, q_locationCoordinates q = Some g -> geoSelect g <> None) ->
  page_of rq = jint (Z.pos P) -> limit_of rq = jint (Z.pos L) ->
  sort_of rq <> "" ->
  exists e, run_listing db q rq = ListResponse e.
Proof.
  intros Hc Hg HP HL Hs. apply String.eqb_neq in Hs.
  unfold run_listing, countDocuments, find, selector.
  rewrite Hs, Hc, HP, HL, jsub_int, jmul_int.
  assert (Hsel : exists f,
    match q_locationCoordinates q with
    | Some g => match geoSelect g with
                | Some near => Some (fun p => near p && matches_fields q p)
                | None => None
                end
    | None => Some (matches_fields q)
    end = Some f).
  { destruct (q_locationCoordinates q) as [g|]; [|eauto].
    specialize (Hg g eq_refl). destruct (geoSelect g); [eauto|contradiction]. }
  destruct Hsel as [f ->]. simpl.
  unfold skip, limit. simpl.
  destruct (Z.leb_spec 0 ((Z.pos P - 1) * Z.pos L)) as [_|Hneg]; [|nia].
  eauto.
Qed.

End ListingClaims.



Lemma findById_id id db p : findById id db = Some p -> p_id p = id.
Proof.
  unfold findById. intros E. apply find_some in E. now apply String.eqb_eq.
Qed.

Lemma findById_save id db p p' :
  findById id db = Some p -> p_id p' = id -> findById id (save p' db) = Some p'.
Proof.
  unfold findById, save. intros E <-. induction db as [|d r IH]; simpl in *.
  - discriminate.
  - destruct (String.eqb_spec (p_id d) (p_id p')) as [Heq|Hne].
    + rewrite String.eqb_refl. reflexivity.
    + apply String.eqb_neq in Hne. rewrite Hne. auto.
Qed.

Section Single.
Context {C : Collaborators}.

Lemma get_property_success st id s p1 st1 :
  get_property st id = (PropertyResponse s p1, st1) ->
  exists p0,
    findById id (docs st) = Some p0 /\
    p1 = with_views p0 (p_views p0 + 1) /\
    st1 = {| docs := save p1 (docs st); cloud := cloud st |}.
Proof.
  unfold get_property.
  destruct (isValidObjectId id); simpl; [|discriminate].
  destruct (findById id (docs st)) as [p0|]; [|discriminate].
  destruct ((0 <=? p_views p0 + 1) && revalidates _); [|discriminate].
  intros [= _ <- <-]. eauto.
Qed.

(** A fetch succeeds when the identifier is valid, the listing exists and
    the incremented document passes validation. *)
Lemma get_property_total st id p0 :
  isValidObjectId id = true -> findById id (docs st) = Some p0 -> 0 <= p_views p0 ->
  revalidates (with_views p0 (p_views p0 + 1)) = true ->
  get_property st id =
    (PropertyResponse 200 (with_views p0 (p_views p0 + 1)),
     {| docs := save (with_views p0 (p_views p0 + 1)) (docs st); cloud := cloud st |}).
Proof.
  intros Hv Hf Hp Hr. unfold get_property. rewrite Hv, Hf. simpl. rewrite Hr.
  destruct (Z.leb_spec 0 (p_views p0 + 1)); [reflexivity|lia].
Qed.

(** Claim C6.  A fetch of a stored listing by a valid identifier succeeds
    when the incremented document passes the validation of [save]: it
    answers 200 with the listing whose view counter is one more than the
    stored one, and that document is the stored one in the resulting
    state.  Every successful fetch is of this kind.  Two fetches in
    sequence both succeed under the same condition, and the stored
    counter is then two more than at the start. *)
Theorem fetch_increments_view_counter (st : State) (id : string) :
  (forall s p1 st1,
      get_property st id = (PropertyResponse s p1, st1) ->
      s = 200 /\
      exists p0,
        findById id (docs st) = Some p0 /\
        p_views p1 = p_views p0 + 1 /\
        findById id (docs st1) = Some p1) /\
  (forall s1 p1 st1 s2 p2 st2,
      get_property st id = (PropertyResponse s1 p1, st1) ->
      get_property st1 id = (PropertyResponse s2 p2, st2) ->
      exists p0,
        findById id (docs st) = Some p0 /\
        findById id (docs st2) = Some p2 /\
        p_views p2 = p_views p0 + 2) /\
  (forall p0,
      isValidObjectId id = true -> findById id (docs st) = Some p0 ->
      0 <= p_views p0 ->
      revalidates (with_views p0 (p_views p0 + 1)) = true ->
      exists p1 st1,
        get_property st id = (PropertyResponse 200 p1, st1) /\
        p_views p1 = p_views p0 + 1 /\
        findById id (docs st1) = Some p1 /\
        (revalidates (with_views p0 (p_views p0 + 2)) = true ->
         exists p2 st2,
           get_property st1 id = (PropertyResponse 200 p2, st2) /\
           p_views p2 = p_views p0 + 2 /\
           findById id (docs st2) = Some p2)).
Proof.
  assert (Once : forall st s p1 st1,
      get_property st id = (PropertyResponse s p1, st1) ->
      s = 200 /\
      exists p0,
        findById id (docs st) = Some p0 /\
        p_views p1 = p_views p0 + 1 /\
        findById id (docs st1) = Some p1).
  { intros st0 s p1 st1 E.
    assert (Hs : s = 200).
    { unfold get_property in E.
      destruct (isValidObjectId id); simpl in E; [|discriminate].
      destruct (findById id (docs st0)) as [p0|]; [|discriminate].
      destruct ((0 <=? p_views p0 + 1) && revalidates _); [|discriminate].
      now injection E as <- _ _. }
    split; [exact Hs|].
    apply get_property_success in E.
    destruct E as (p0 & Hfind & -> & ->). exists p0. simpl.
    repeat split; trivial.
    eapply findById_save; [eassumption|]. simpl. eapply findById_id; eassumption. }
  split; [apply Once|]. split.
  - intros s1 p1 st1 s2 p2 st2 E1 E2.
    destruct (Once _ _ _ _ E1) as (_ & p0 & F0 & V1 & F1).
    destruct (Once _ _ _ _ E2) as (_ & p1' & F1' & V2 & F2).
    rewrite F1 in F1'. injection F1' as <-.
    exists p0. repeat split; trivial. lia.
  - intros p0 Hv F0 Hp Hr.
    pose proof (get_property_total st id p0 Hv F0 Hp Hr) as E1.
    set (p1 := with_views p0 (p_views p0 + 1)) in *.
    set (st1 := {| docs := save p1 (docs st); cloud := cloud st |}) in *.
    assert (F1 : findById id (docs st1) = Some p1).
    { eapply findById_save; [exact F0|]. simpl. eapply findById_id; exact F0. }
    exists p1, st1. split; [exact E1|]. split; [reflexivity|]. split; [exact F1|].
    intros Hr2.
    assert (E2 : get_property st1 id =
                 (PropertyResponse 200 (with_views p1 (p_views p1 + 1)),
                  {| docs := save (with_views p1 (p_views p1 + 1)) (docs st1);
                     cloud := cloud st1 |})).
    { apply get_property_total; [exact Hv|exact F1|simpl; lia|].
      replace (p_views p1 + 1) with (p_views p0 + 2) by (simpl; lia). exact Hr2. }
    eexists. eexists. split; [exact E2|]. split; [simpl; lia|].
    eapply findById_save; [exact F1|]. simpl. eapply findById_id; exact F0.
Qed.

(** Claim C7.  On the single-listing fetch, an identifier that is not a
    valid object id is answered with 400 "Invalid property ID"; a valid one
    that matches no listing is answered with 404 "Property not found"; the
    two responses differ and a malformed identifier is never answered with
    404.  The state is unchanged in both cases. *)
Theorem malformed_id_is_400_not_404 (st : State) (id : string) :
  (isValidObjectId id = false -> get_property st id = (invalid_id, st)) /\
  (isValidObjectId id = true -> findById id (docs st) = None ->
   get_property st id = (not_found, st)) /\
  status_code invalid_id = Some 400 /\
  status_code not_found = Some 404 /\
  (isValidObjectId id = false ->
   status_code (fst (get_property st id)) <> Some 404).
Proof.
  unfold get_property. repeat split.
  - now intros ->.
  - now intros -> ->.
  - intros ->. simpl. discriminate.
Qed.

(** Claim C8.  A delete request on an existing listing by a user who is
    neither the listing's agent nor an administrator is answered with 403
    "Not authorized" and leaves the collection and the asset store as they
    were.  Whenever a delete request changes the state, the listing was
    found and the requester is its agent or an administrator. *)
Theorem delete_forbidden_for_others (st : State) (id : string) (user : User) :
  (forall p,
      isValidObjectId id = true -> findById id (docs st) = Some p ->
      p_agent p <> u_id user -> role user <> "admin" ->
      delete_property st id user = (not_authorized, st)) /\
  (forall r st',
      delete_property st id user = (r, st') ->
      st' = st \/
      exists p,
        findById id (docs st) = Some p /\
        (p_agent p = u_id user \/ role user = "admin") /\
        st' = {| docs := deleteOne p (docs st);
                 cloud := destroy_images (p_images p) (cloud st) |}).
Proof.
  unfold delete_property, isOwner. split.
  - intros p -> -> Ha Hr. simpl.
    apply String.eqb_neq in Ha, Hr. now rewrite Ha, Hr.
  - intros r st'. destruct (isValidObjectId id); simpl; [|intros [= _ <-]; now left].
    destruct (findById id (docs st)) as [p|]; [|intros [= _ <-]; now left].
    destruct (String.eqb_spec (p_agent p) (u_id user)) as [Ha|Ha]; simpl.
    + intros [= _ <-]. right. exists p. auto.
    + destruct (String.eqb_spec (role user) "admin") as [Hr|Hr]; simpl.
      * intros [= _ <-]. right. exists p. auto.
      * intros [= _ <-]. now left.
Qed.

(** Claim C9.  On the status update, with a well-formed identifier and a
    status that is not one of active, sold, pending and rented, the answer
    is 400 "Invalid status value" and the state is unchanged, whatever the
    collection holds and whoever asks: the status is checked before the
    listing is looked up and before ownership is checked. *)
Theorem invalid_status_checked_first (st : State) (id : string) (user : User)
    (status : jsval) :
  isValidObjectId id = true ->
  (forall s, status = JStr s -> ~ In s status_values) ->
  patch_status st id user status =
    (MessageResponse 400 false "Invalid status value", st).
Proof.
  intros Hv Hs. unfold patch_status. rewrite Hv. simpl.
  assert (E : includes_status status = false).
  { destruct status as [|s| |]; trivial. simpl.
    destruct (mem_string s status_values) eqn:M; trivial.
    exfalso. apply (Hs s eq_refl).
    unfold mem_string in M. apply existsb_exists in M.
    destruct M as (x & Hx & Ex). apply String.eqb_eq in Ex. now subst. }
  now rewrite E.
Qed.

End Single.


Lemma truthy_and lat lng : truthy (js_and lat lng) = truthy lat && truthy lng.
Proof. unfold js_and. destruct (truthy lat) eqn:E; simpl; trivial. Qed.

Lemma supplied_point_absent lat lng :
  truthy lat = false \/ truthy lng = false -> supplied_point lat lng = Some None.
Proof.
  intros E. unfold supplied_point. rewrite truthy_and.
  destruct E as [-> | ->]; rewrite ?andb_false_r; reflexivity.
Qed.

Lemma supplied_point_present lat lng pt :
  truthy lat = true -> truthy lng = true ->
  supplied_point lat lng = Some pt ->
  pt = Some {| geo_type := "Point"; coordinates := [Number lng; Number lat] |}.
Proof.
  intros Ha Hb. unfold supplied_point, cast_point. rewrite truthy_and, Ha, Hb. simpl.
  destruct (is_nan (Number lng) || is_nan (Number lat)); simpl; [discriminate|].
  now intros [= <-].
Qed.

Lemma new_document_point {C : Collaborators} fresh now user req p :
  new_document fresh now user req = Some p ->
  exists pt, supplied_point (body req "lat") (body req "lng") = Some pt /\
             p_locationCoordinates p = default default_locationCoordinates pt.
Proof.
  unfold new_document. intros E. simplify_option_eq. eauto.
Qed.

Lemma updated_document_fields {C : Collaborators} property req p' :
  updated_document property req = Some p' ->
  exists pt,
    supplied_point (body req "lat") (body req "lng") = Some pt /\
    p_locationCoordinates p' = default (p_locationCoordinates property) pt /\
    cast_required_string (body req "title") = Some (p_title p') /\
    cast_required_string (body req "description") = Some (p_description p') /\
    cast_number_min0 (Number (body req "price")) = Some (p_price p') /\
    cast_required_string (body req "location") = Some (p_location p') /\
    cast_type (body req "type") = Some (p_type p') /\
    update_amenities (body req "amenities") = Some (p_amenities p') /\
    cast_number_min0 (number_or_zero (body req "bedrooms")) = Some (p_bedrooms p') /\
    cast_number_min0 (number_or_zero (body req "bathrooms")) = Some (p_bathrooms p') /\
    cast_number_min0 (number_or_zero (body req "squareFootage")) = Some (p_squareFootage p').
Proof.
  unfold updated_document. intros E. simplify_option_eq. eauto 20.
Qed.

Lemma create_needs_upload {C : Collaborators} st fresh now user fields :
  create_property st fresh now user (Json fields) = (create_failed, st).
Proof. reflexivity. Qed.

Lemma create_property_success {C : Collaborators} st fresh now user req s p st' :
  create_property st fresh now user req = (PropertyResponse s p, st') ->
  new_document fresh now user req = Some p /\
  exists fields fs, req = Multipart fields fs.
Proof.
  unfold create_property.
  destruct (new_document fresh now user req) as [d|] eqn:E; [|discriminate].
  intros [= _ <- _]. split; [reflexivity|].
  destruct req as [fields fs|fields]; [eauto|discriminate].
Qed.

Section Coordinates.
Context {C : Collaborators}.

Lemma update_property_success st id user req s p' st' :
  update_property st id user req = (PropertyResponse s p', st') ->
  exists p, findById id (docs st) = Some p /\ updated_document p req = Some p'.
Proof.
  unfold update_property.
  destruct (isValidObjectId id); simpl; [|discriminate].
  destruct (findById id (docs st)) as [p|]; [|discriminate].
  destruct (isOwner p user); simpl; [|discriminate].
  destruct (updated_document p req) as [d|] eqn:E; [|discriminate].
  destruct (revalidates d); [|discriminate].
  intros [= _ <- _]. eauto.
Qed.

(** Claim C10, as amended.  The guard on [lat] and [lng] is JavaScript
    truthiness: undefined, the empty string and the number 0 are falsy,
    the string "0" is truthy.  A listing is created only from a multipart
    form, whose fields are strings: when both fields are truthy (also when
    one is "0") the pair [[Number(lng), Number(lat)]] is stored, and the
    default coordinate is used when one of them is falsy, which for a form
    that [validateProperty] has passed on means that the field is absent
    (an empty [lat] or [lng] is answered 400 before the handler).  A full
    update in which [lat] or [lng] is falsy (absent, or the JSON number 0)
    keeps the previous coordinates and still assigns the other fields,
    each as the schema casts it (a number given for a String path by its
    text); when both are truthy the supplied pair is stored. *)
Theorem coordinate_guard_is_truthiness (st : State) (user : User) (req : payload) :
  (truthy JUndefined = false /\ truthy (JStr "") = false /\
   truthy (JNum (jint 0)) = false /\ truthy (JStr "0") = true) /\
  (forall fresh now s p st',
      create_property st fresh now user req = (PropertyResponse s p, st') ->
      (exists fields fs, req = Multipart fields fs) /\
      (truthy (body req "lat") = true -> truthy (body req "lng") = true ->
       p_locationCoordinates p =
         {| geo_type := "Point";
            coordinates := [Number (body req "lng"); Number (body req "lat")] |}) /\
      (truthy (body req "lat") = false \/ truthy (body req "lng") = false ->
       p_locationCoordinates p = default_locationCoordinates)) /\
  (forall id s p p' st',
      findById id (docs st) = Some p ->
      update_property st id user req = (PropertyResponse s p', st') ->
      (truthy (body req "lat") = false \/ truthy (body req "lng") = false ->
       p_locationCoordinates p' = p_locationCoordinates p) /\
      (truthy (body req "lat") = true -> truthy (body req "lng") = true ->
       p_locationCoordinates p' =
         {| geo_type := "Point";
            coordinates := [Number (body req "lng"); Number (body req "lat")] |}) /\
      cast_required_string (body req "title") = Some (p_title p') /\
      cast_required_string (body req "description") = Some (p_description p') /\
      cast_number_min0 (Number (body req "price")) = Some (p_price p') /\
      cast_required_string (body req "location") = Some (p_location p') /\
      cast_type (body req "type") = Some (p_type p') /\
      update_amenities (body req "amenities") = Some (p_amenities p') /\
      cast_number_min0 (number_or_zero (body req "bedrooms")) = Some (p_bedrooms p') /\
      cast_number_min0 (number_or_zero (body req "bathrooms")) = Some (p_bathrooms p') /\
      cast_number_min0 (number_or_zero (body req "squareFootage")) =
        Some (p_squareFootage p')).
Proof.
  split; [repeat split|]. split.
  - intros fresh now s p st' E.
    apply create_property_success in E. destruct E as [E Hm].
    apply new_document_point in E. destruct E as (pt & Hpt & ->).
    split; [exact Hm|]. split.
    + intros Ha Hb. now rewrite (supplied_point_present _ _ _ Ha Hb Hpt).
    + intros Hf. rewrite (supplied_point_absent _ _ Hf) in Hpt. now injection Hpt as <-.
  - intros id s p p' st' Hfind E.
    apply update_property_success in E. destruct E as (p0 & Hfind' & E).
    rewrite Hfind in Hfind'. injection Hfind' as <-.
    apply updated_document_fields in E.
    destruct E as (pt & Hpt & -> & Hrest).
    split; [|split; [|exact Hrest]].
    + intros Hf. rewrite (supplied_point_absent _ _ Hf) in Hpt. now injection Hpt as <-.
    + intros Ha Hb. now rewrite (supplied_point_present _ _ _ Ha Hb Hpt).
Qed.

End Coordinates.



(** *** The location filter on plain strings *)

Lemma plain_not_dot c : mem_ascii c syntax_characters = false -> Ascii.eqb c "."%char = false.
Proof.
  intros E. destruct (Ascii.eqb_spec c "."%char) as [->|]; [|reflexivity].
  vm_compute in E. discriminate.
Qed.

Lemma parse_atoms_plain s : plain s = true -> parse_atoms s = Some (literals s).
Proof.
  induction s as [|c r IH]; [reflexivity|].
  cbn [plain parse_atoms literals].
  intros E. apply andb_true_iff in E. destruct E as [Hc Hr].
  apply negb_true_iff in Hc. rewrite (IH Hr), (plain_not_dot c Hc), Hc. reflexivity.
Qed.

Lemma literals_match_here s t : atoms_match_here (literals s) t = ci_prefix s t.
Proof.
  revert t. induction s as [|c r IH]; intros [|d t]; simpl; trivial.
  now rewrite IH.
Qed.

Lemma literals_search s t : atoms_search (literals s) t = ci_substring s t.
Proof.
  induction t as [|d t IH]; simpl; rewrite literals_match_here; [reflexivity|].
  now rewrite IH.
Qed.

(** A location filter without syntax characters is the case-insensitive
    substring test. *)
Lemma location_filter_plain {C : Collaborators} rev a rq pat q :
  rq !! "location" = Some pat -> pat <> "" -> plain pat = true ->
  build_query rev a rq = Some q ->
  exists re, q_location q = Some re /\
             forall loc, RegExp_test re loc = ci_substring pat loc.
Proof.
  intros Hl Hne Hp B. unfold build_query in B. rewrite Hl in B.
  unfold present in B. destruct (String.eqb_spec pat "") as [|_]; [contradiction|].
  unfold new_RegExp_i in B. rewrite (parse_atoms_plain _ Hp) in B. simpl in B.
  injection B as <-. simpl. eexists. split; [reflexivity|].
  intros loc. apply literals_search.
Qed.


(** A pattern the constructor rejects: the public route builds the
    expression before its [try] block, so the exception leaves the handler;
    the agent-scoped route answers 500. *)
Lemma location_syntax_error {C : Collaborators} rev db u rq pat :
  rq !! "location" = Some pat -> pat <> "" ->
  parse_atoms pat = None -> regexp_engine pat = None ->
  get_properties rev db rq = Unhandled /\
  get_user_properties rev db (Some u) rq = server_error.
Proof.
  intros Hl Hne Hp He. unfold get_properties, get_user_properties, build_query.
  rewrite Hl. unfold present. destruct (String.eqb_spec pat "") as [|_]; [contradiction|].
  unfold new_RegExp_i. rewrite Hp, He. split; reflexivity.
Qed.

(** Claim C5, at a failing input.  The claim says that the location filter
    matches a listing exactly when the filter string occurs in the
    listing's location, case-insensitively, also when the string holds
    regular expression syntax characters.  The routes pass the string to
    [new RegExp] unescaped: on both routes and in both revisions the filter
    "Ikoyi." returns the listing located at "Ikoyi, Lagos", in which
    "Ikoyi." does not occur.  The locations route, whose comment calls the
    same expression a case-insensitive partial match, lists that location
    for the same string. *)
Theorem location_dot_is_a_wildcard {C : Collaborators} (rev : revision) :
  ci_substring "Ikoyi." (p_location villa) = false /\
  returned (get_properties rev [villa] ikoyi_dot) villa /\
  returned (get_user_properties rev [villa] (Some agent_a) ikoyi_dot) villa /\
  get_locations [villa] search_ikoyi_dot = LocationsResponse 1 [p_location villa].
Proof.
  split; [reflexivity|].
  repeat split; try reflexivity;
    destruct rev; eexists; (split; [vm_compute; reflexivity|]); simpl; auto.
Qed.

(** ** The statements at concrete requests *)

Section AtConcreteRequests.
#[local] Existing Instance sample_collaborators.


(** C1 at a dataset of two listings: the one with amenities [pool] is
    returned for [amenities=pool] and not for [amenities=pool,gym]; the one
    with [pool, garage] is not returned for [amenities=pool,gym] either.
    The padded list [" pool , garage "] has the tags [pool] and [garage]:
    it returns the listing that has both and not the one with [pool]
    only. *)
Lemma amenities_filter_witness :
  returned (get_properties GeoWithinRevision [villa; pool_flat] pool_only) pool_flat /\
  ~ returned (get_properties GeoWithinRevision [villa; pool_flat] pool_and_gym) pool_flat /\
  ~ returned (get_properties NearRevision [villa; pool_flat] pool_and_gym) villa /\
  map trim (split_comma " pool , garage ") = ["pool"; "garage"] /\
  returned (get_properties GeoWithinRevision [villa; pool_flat] padded_pool_garage) villa /\
  returned (get_user_properties NearRevision [villa; pool_flat] (Some agent_a)
              padded_pool_garage) villa /\
  ~ returned (get_properties GeoWithinRevision [villa; pool_flat] padded_pool_garage)
      pool_flat.
Proof.
  destruct (amenities_filter_is_all_of (C := sample_collaborators) GeoWithinRevision
              [villa; pool_flat] None)
    as (G' & N & P & _ & _ & _ & Pos).
  destruct (amenities_filter_is_all_of (C := sample_collaborators) NearRevision
              [villa; pool_flat] None)
    as (G & _ & _ & _ & _ & _ & Pos').
  split; [|split; [|split; [|split; [|split; [|split]]]]].
  - refine (proj1 (P pool_flat _ _ _)); [reflexivity | simpl; auto | simpl; lia].
  - apply (N pool_and_gym); [left; reflexivity | reflexivity | reflexivity].
  - intros R.
    assert (Hgym : In "gym" (p_amenities villa)).
    { apply (G pool_and_gym
                 (get_properties NearRevision [villa; pool_flat] pool_and_gym)
                 "pool,gym" villa);
        [left; reflexivity | reflexivity | discriminate | exact R | simpl; auto]. }
    simpl in Hgym. destruct Hgym as [E|[E|[]]]; discriminate E.
  - reflexivity.
  - refine (proj1 (Pos " pool , garage " villa _ _ _ _));
      [discriminate | simpl; auto | simpl; lia |].
    intros t Ht. vm_compute in Ht. destruct Ht as [<-|[<-|[]]]; simpl; auto.
  - refine (proj2 (Pos' " pool , garage " villa _ _ _ _) agent_a eq_refl);
      [discriminate | simpl; auto | simpl; lia |].
    intros t Ht. vm_compute in Ht. destruct Ht as [<-|[<-|[]]]; simpl; auto.
  - intros R.
    assert (Hg : In "garage" (p_amenities pool_flat)).
    { apply (G' padded_pool_garage
                 (get_properties GeoWithinRevision [villa; pool_flat] padded_pool_garage)
                 " pool , garage " pool_flat);
        [left; reflexivity | reflexivity | discriminate | exact R | simpl; auto]. }
    simpl in Hg. destruct Hg as [E|[]]. discriminate E.
Defined.


(** C4 as stated fails: with [priceMin=abc] both routes answer 500 for
    every choice of collaborators, while the same request without the
    parameter returns the listing. *)
Lemma unparseable_priceMin_counterexample :
  StringToNumber "abc" = NaN /\
  forall (C : Collaborators) (rev : revision),
    get_properties (C := C) rev [villa] abc_priceMin = server_error /\
    get_user_properties (C := C) rev [villa] (Some agent_a) abc_priceMin
      = server_error /\
    returned (get_properties (C := C) rev [villa] (delete "priceMin" abc_priceMin))
             villa /\
    returned (get_user_properties (C := C) rev [villa] (Some agent_a)
                (delete "priceMin" abc_priceMin)) villa.
Proof.
  split; [reflexivity|]. intros C rev.
  repeat split; try (destruct rev; vm_compute; reflexivity);
    destruct rev; eexists; (split; [vm_compute; reflexivity|]); simpl; auto.
Qed.

(** C4 as amended, at [priceMin=] (empty) and at [priceMin=abc]. *)
Lemma numeric_filter_witness :
  get_properties GeoWithinRevision [villa] empty_priceMin
    = get_properties GeoWithinRevision [villa] (delete "priceMin" empty_priceMin) /\
  run_listing [villa]
    {| q_agent := None; q_text := None; q_locationCoordinates := None;
       q_location := None; q_type := None; q_amenities_all := None;
       q_bedrooms := None; q_bathrooms := None; q_status := None;
       q_price := Some {| gte := Some NaN; lte := None |};
       q_squareFootage := None |} abc_priceMin = server_error.
Proof.
  split.
  - refine (proj1 (proj1 (numeric_filter_empty_or_rejected GeoWithinRevision [villa]
                            None empty_priceMin "priceMin" "" _ _) eq_refl));
      [simpl; auto | reflexivity].
  - refine (proj1 (proj2 (numeric_filter_empty_or_rejected GeoWithinRevision [villa]
                            None abc_priceMin "priceMin" "abc" _ _) _ _) None _ _);
      [simpl; auto | reflexivity | discriminate | reflexivity | reflexivity].
Defined.

(** C6 at two fetches of the sample listing: both answer 200, with one
    view and with two. *)
Lemma fetch_twice_witness :
  exists p1 st1 p2 st2,
    get_property sample_state (p_id villa) = (PropertyResponse 200 p1, st1) /\
    get_property st1 (p_id villa) = (PropertyResponse 200 p2, st2) /\
    p_views villa = 0 /\ p_views p1 = 1 /\ p_views p2 = 2 /\
    findById (p_id villa) (docs st1) = Some p1 /\
    findById (p_id villa) (docs st2) = Some p2.
Proof.
  destruct (proj2 (proj2 (fetch_increments_view_counter (C := sample_collaborators)
                            sample_state (p_id villa)))
              villa ltac:(vm_compute; reflexivity) ltac:(vm_compute; reflexivity)
              ltac:(simpl; lia) ltac:(vm_compute; reflexivity))
    as (p1 & st1 & E1 & V1 & F1 & Two).
  destruct (Two ltac:(vm_compute; reflexivity)) as (p2 & st2 & E2 & V2 & F2).
  exists p1, st1, p2, st2. repeat split; assumption || reflexivity.
Defined.

(** C7 at a malformed identifier and at a well-formed one that no listing has. *)
Lemma malformed_id_witness :
  get_property sample_state "not-an-id" = (invalid_id, sample_state) /\
  get_property sample_state missing_id = (not_found, sample_state).
Proof.
  split.
  - exact (proj1 (malformed_id_is_400_not_404 sample_state "not-an-id") eq_refl).
  - exact (proj1 (proj2 (malformed_id_is_400_not_404 sample_state missing_id))
             eq_refl eq_refl).
Defined.

(** C8 at a delete of the first agent's listing by a second agent. *)
Lemma delete_forbidden_witness :
  delete_property sample_state (p_id villa) agent_b = (not_authorized, sample_state).
Proof.
  refine (proj1 (delete_forbidden_for_others sample_state (p_id villa) agent_b)
            villa eq_refl eq_refl _ _); discriminate.
Defined.

(** C9 at a status outside the four values, for an identifier that no
    listing has and a requester who owns nothing. *)
Lemma invalid_status_witness :
  patch_status sample_state missing_id agent_b (JStr "archived")
    = (MessageResponse 400 false "Invalid status value", sample_state).
Proof.
  apply invalid_status_checked_first; [reflexivity|].
  intros s [= <-] Hin. simpl in Hin. intuition discriminate.
Defined.

(** C10 as stated fails: a listing created from a form with [lat=0] and
    [lng=10] stores the coordinate [[10, 0]], not the default [[0, 0]]; the
    same fields as JSON numbers create nothing. *)
Lemma zero_latitude_counterexample :
  create_property empty_state missing_id 0 agent_a (Multipart equator_form [])
    = (PropertyResponse 201 (equator_plot missing_id 0),
       {| docs := [equator_plot missing_id 0]; cloud := cloud empty_state |}) /\
  coordinates (p_locationCoordinates (equator_plot missing_id 0))
    = [jint 10; jint 0] /\
  coordinates default_locationCoordinates = [jint 0; jint 0] /\
  create_property empty_state missing_id 0 agent_a (Json equator_json)
    = (create_failed, empty_state).
Proof.
  split; [vm_compute; reflexivity|]. repeat split.
Qed.


(** C10 as amended: a full update with the JSON number 0 for [lat] keeps
    the coordinates and assigns the title, also when the title is the
    JSON number 123; a create from the form with [lat=0] stores the
    supplied pair, and a create from a form without [lat] and [lng] stores
    the default. *)
Lemma coordinate_guard_witness :
  update_property sample_state (p_id villa) agent_a (Json equator_json)
    = (PropertyResponse 200 updated_villa,
       {| docs := save updated_villa (docs sample_state);
          cloud := cloud sample_state |}) /\
  p_locationCoordinates updated_villa = p_locationCoordinates villa /\
  cast_required_string (body (Json equator_json) "title") = Some (p_title updated_villa) /\
  update_property sample_state (p_id villa) agent_a (Json numeric_json)
    = (PropertyResponse 200 numeric_villa,
       {| docs := save numeric_villa (docs sample_state);
          cloud := cloud sample_state |}) /\
  p_locationCoordinates numeric_villa = p_locationCoordinates villa /\
  p_title numeric_villa = "123" /\ p_amenities numeric_villa = ["5"] /\
  p_locationCoordinates (equator_plot missing_id 0)
    = {| geo_type := "Point";
         coordinates := [Number (JStr "10"); Number (JStr "0")] |} /\
  (exists p st',
     create_property empty_state missing_id 0 agent_a
       (Multipart (delete "lat" (delete "lng" equator_form)) [])
       = (PropertyResponse 201 p, st') /\
     p_locationCoordinates p = default_locationCoordinates).
Proof.
  assert (Created :
    create_property empty_state missing_id 0 agent_a (Multipart equator_form [])
    = (PropertyResponse 201 (equator_plot missing_id 0),
       {| docs := [equator_plot missing_id 0]; cloud := cloud empty_state |}))
    by (vm_compute; reflexivity).
  destruct (proj1 (proj2 (coordinate_guard_is_truthiness (C := sample_collaborators)
                            empty_state agent_a (Multipart equator_form [])))
              missing_id 0 201 (equator_plot missing_id 0) _ Created)
    as (_ & Stored & _).
  assert (E : update_property sample_state (p_id villa) agent_a (Json equator_json)
    = (PropertyResponse 200 updated_villa,
       {| docs := save updated_villa (docs sample_state);
          cloud := cloud sample_state |})) by (vm_compute; reflexivity).
  assert (E' : update_property sample_state (p_id villa) agent_a (Json numeric_json)
    = (PropertyResponse 200 numeric_villa,
       {| docs := save numeric_villa (docs sample_state);
          cloud := cloud sample_state |})) by (vm_compute; reflexivity).
  split; [exact E|].
  destruct (proj2 (proj2 (coordinate_guard_is_truthiness (C := sample_collaborators)
                            sample_state agent_a (Json equator_json)))
              (p_id villa) 200 villa updated_villa _ ltac:(vm_compute; reflexivity) E)
    as (Keep & _ & T & _).
  destruct (proj2 (proj2 (coordinate_guard_is_truthiness (C := sample_collaborators)
                            sample_state agent_a (Json numeric_json)))
              (p_id villa) 200 villa numeric_villa _ ltac:(vm_compute; reflexivity) E')
    as (Keep' & _ & T' & _ & _ & _ & _ & A' & _).
  split; [apply Keep; left; reflexivity|].
  split; [exact T|].
  split; [exact E'|].
  split; [apply Keep'; left; reflexivity|].
  split; [reflexivity|]. split; [reflexivity|].
  split; [apply Stored; reflexivity|].
  assert (Plain : exists p st',
    create_property empty_state missing_id 0 agent_a
      (Multipart (delete "lat" (delete "lng" equator_form)) [])
      = (PropertyResponse 201 p, st'))
    by (eexists; eexists; vm_compute; reflexivity).
  destruct Plain as (p & st' & Plain). exists p, st'. split; [exact Plain|].
  destruct (proj1 (proj2 (coordinate_guard_is_truthiness (C := sample_collaborators)
                            empty_state agent_a
                            (Multipart (delete "lat" (delete "lng" equator_form)) [])))
              missing_id 0 201 p st' Plain)
    as (_ & _ & Default).
  apply Default. left. reflexivity.
Defined.

End AtConcreteRequests.

(** ** The two geospatial operators, as far as the source decides them *)

(** Both revisions guard the filter by the same condition and use the same
    centre; the distances are [radius * 1000] (metres) and
    [radius / 6378.1] (radians). *)
Lemma geo_filter_revisions (lat lng radius : option string) :
  match geo_filter NearRevision lat lng radius,
        geo_filter GeoWithinRevision lat lng radius with
  | Some (Near x y m), Some (GeoWithinCenterSphere x' y' a) =>
      x = x' /\ y = y' /\
      exists r, present radius = Some r /\
                m = jmul (StringToNumber r) (jint 1000) /\
                a = jdiv (StringToNumber r) (Fin (63781 # 10))
  | None, None => True
  | _, _ => False
  end.
Proof.
  unfold geo_filter.
  destruct (present lat), (present lng), (present radius); simpl; eauto 10.
Qed.

(** In exact arithmetic the two encodings of the radius denote the same
    distance on a sphere of radius 6378.1 km: [radius * 1000] metres is
    [radius / 6378.1] radians times 6378100 metres. *)
Lemma radius_encodings_agree (r : Q) :
  jmul (Fin r) (jint 1000) =
  jmul (jdiv (Fin r) (Fin (63781 # 10))) (jint 6378100).
Proof.
  unfold jmul, jdiv, jint. simpl. f_equal.
  apply Qred_complete. rewrite (Qred_correct (r / (63781 # 10))). field.
Qed.

(** * Further properties of the routes *)

(** ** Parameters the listing routes read *)

Lemma run_listing_insert {C : Collaborators} db q rq k v :
  k <> "page" -> k <> "limit" -> k <> "sort" -> k <> "order" ->
  run_listing db q (<[k := v]> rq) = run_listing db q rq.
Proof.
  intros. unfold run_listing, page_of, limit_of, sort_of, order_of.
  now rewrite !lookup_insert_ne by assumption.
Qed.

(** A key that is none of the filter names leaves the query as it is;
    [status] counts only on the agent-scoped route. *)
Lemma build_query_insert_unread {C : Collaborators} rev a rq k v :
  ~ In k user_params \/ (a = None /\ k = "status") ->
  build_query rev a (<[k := v]> rq) = build_query rev a rq.
Proof.
  intros [Hk | [-> ->]]; unfold build_query.
  - rewrite !lookup_insert_ne by (intros ->; apply Hk; simpl; tauto). reflexivity.
  - rewrite !lookup_insert_ne by (intros E; apply String.eqb_eq in E; discriminate E).
    reflexivity.
Qed.

Lemma build_query_insert_paging {C : Collaborators} rev a rq k v :
  In k ["page"; "limit"; "sort"; "order"] ->
  build_query rev a (<[k := v]> rq) = build_query rev a rq.
Proof.
  intros Hk. unfold build_query.
  repeat (destruct Hk as [<-|Hk]); try contradiction;
    rewrite !lookup_insert_ne by (intros E; apply String.eqb_eq in E; discriminate E);
    reflexivity.
Qed.

Section MoreListing.
Context {C : Collaborators}.

(** X1.  A parameter that the public route does not read has no effect on its
    answer; [status] is one of them, so the public route never restricts
    by status.  On the agent-scoped route the same holds for every name
    other than its eighteen. *)
Theorem unread_parameters_are_ignored (rev : revision) (db : list Property)
    (user : option User) (rq : gmap string string) (k v : string) :
  ~ In k public_params ->
  get_properties rev db (<[k := v]> rq) = get_properties rev db rq /\
  (k <> "status" ->
   get_user_properties rev db user (<[k := v]> rq) = get_user_properties rev db user rq).
Proof.
  intros Hk.
  assert (Hrun : forall q, run_listing db q (<[k := v]> rq) = run_listing db q rq).
  { intros q. apply run_listing_insert; intros ->; apply Hk; simpl; tauto. }
  split.
  - unfold get_properties. rewrite build_query_insert_unread.
    + destruct (build_query rev None rq); [apply Hrun|reflexivity].
    + destruct (String.eqb_spec k "status") as [->|Hs]; [now right|].
      left. intros [<-|Hin]; [now apply Hs|contradiction].
  - intros Hs. unfold get_user_properties. destruct user as [u|]; [|reflexivity].
    rewrite build_query_insert_unread.
    + destruct (build_query rev (Some (u_id u)) rq); [apply Hrun|reflexivity].
    + left. intros [<-|Hin]; [now apply Hs|contradiction].
Qed.

Lemma run_listing_with_default db q rq k v :
  In (k, v) [("page", "1"); ("limit", "10"); ("sort", "createdAt"); ("order", "desc")] ->
  run_listing db q (with_default k v rq) = run_listing db q rq.
Proof.
  intros Hk. unfold with_default.
  repeat (destruct Hk as [[= <- <-]|Hk]); try contradiction;
    match goal with |- context [rq !! ?key] => destruct (rq !! key) eqn:E end;
    trivial;
    unfold run_listing, page_of, limit_of, sort_of, order_of;
    rewrite ?lookup_insert_eq;
    rewrite !lookup_insert_ne by (intros E'; apply String.eqb_eq in E'; discriminate E');
    rewrite ?E; reflexivity.
Qed.

Lemma build_query_with_default rev a rq k v :
  In k ["page"; "limit"; "sort"; "order"] ->
  build_query rev a (with_default k v rq) = build_query rev a rq.
Proof.
  intros Hk. unfold with_default. destruct (rq !! k); [reflexivity|].
  now apply build_query_insert_paging.
Qed.

(** X2.  An absent [page], [limit], [sort] or [order] is the same request as
    one that gives [page=1], [limit=10], [sort=createdAt], [order=desc]. *)
Theorem paging_defaults (rev : revision) (db : list Property) (user : option User)
    (rq : gmap string string) :
  get_properties rev db (with_defaults rq) = get_properties rev db rq /\
  get_user_properties rev db user (with_defaults rq) = get_user_properties rev db user rq.
Proof.
  assert (Hb : forall a, build_query rev a (with_defaults rq) = build_query rev a rq).
  { intros a. unfold with_defaults.
    rewrite !build_query_with_default by (simpl; tauto). reflexivity. }
  assert (Hr : forall q, run_listing db q (with_defaults rq) = run_listing db q rq).
  { intros q. unfold with_defaults.
    rewrite !run_listing_with_default by (simpl; tauto). reflexivity. }
  unfold get_properties, get_user_properties. rewrite Hb. split.
  - destruct (build_query rev None rq); [apply Hr|reflexivity].
  - destruct user as [u|]; [|reflexivity]. rewrite Hb.
    destruct (build_query rev (Some (u_id u)) rq); [apply Hr|reflexivity].
Qed.

(** *** Every given filter constrains the page *)

Lemma build_query_filters rev a rq q :
  build_query rev a rq = Some q ->
  q_agent q = a /\
  q_type q = present (rq !! "type") /\
  q_bedrooms q = option_map StringToNumber (present (rq !! "bedrooms")) /\
  q_bathrooms q = option_map StringToNumber (present (rq !! "bathrooms")) /\
  q_status q = match a with Some _ => present (rq !! "status") | None => None end /\
  q_price q = range_filter (rq !! "priceMin") (rq !! "priceMax") /\
  q_squareFootage q =
    range_filter (rq !! "squareFootageMin") (rq !! "squareFootageMax") /\
  q_locationCoordinates q = geo_filter rev (rq !! "lat") (rq !! "lng") (rq !! "radius").
Proof.
  unfold build_query.
  destruct (match present (rq !! "location") with Some _ => _ | None => _ end);
    [|discriminate].
  intros [= <-]. simpl. auto 10.
Qed.

Lemma matches_fields_parts q p :
  matches_fields q p = true ->
  opt_holds (q_agent q) (String.eqb (p_agent p)) = true /\
  opt_holds (q_type q) (String.eqb (p_type p)) = true /\
  opt_holds (q_bedrooms q) (jeq (p_bedrooms p)) = true /\
  opt_holds (q_bathrooms q) (jeq (p_bathrooms p)) = true /\
  opt_holds (q_status q) (String.eqb (p_status p)) = true /\
  opt_holds (q_price q) (fun r => in_range r (p_price p)) = true /\
  opt_holds (q_squareFootage q) (fun r => in_range r (p_squareFootage p)) = true.
Proof.
  unfold matches_fields. intros E.
  repeat (apply andb_true_iff in E; destruct E as [E ?]). auto 10.
Qed.

Lemma present_some o s : o = Some s -> s <> "" -> present o = Some s.
Proof. intros -> Hs. unfold present. now destruct (String.eqb_spec s ""). Qed.


Lemma returned_matches rev db user rq r p :
  listing_response rev db user rq r -> returned r p ->
  exists a q, build_query rev a rq = Some q /\ In p db /\ matches_fields q p = true /\
              (r = get_properties rev db rq /\ a = None \/
               exists u, user = Some u /\ a = Some (u_id u)).
Proof.
  intros Hr (e & -> & Hp). destruct Hr as [E|E]; symmetry in E.
  - unfold get_properties in E.
    destruct (build_query rev None rq) as [q|] eqn:B; [|discriminate].
    destruct (returned_selected _ _ _ _ _ E Hp). exists None, q.
    repeat split; trivial. left. split; [|reflexivity].
    unfold get_properties. now rewrite B.
  - unfold get_user_properties in E. destruct user as [u|]; [|discriminate].
    destruct (build_query rev (Some (u_id u)) rq) as [q|] eqn:B; [|discriminate].
    destruct (returned_selected _ _ _ _ _ E Hp). exists (Some (u_id u)), q.
    repeat split; trivial. right. eauto.
Qed.


(** X4.  [type], [bedrooms] and [bathrooms] are exact matches: every listing of
    the returned page has the given type and the given numbers; the string
    "0" is a filter like any other number. *)
Theorem exact_filters_hold (rev : revision) (db : list Property)
    (user : option User) (rq : gmap string string) (r : response) (p : Property) :
  listing_response rev db user rq r -> returned r p ->
  (forall s, rq !! "type" = Some s -> s <> "" -> p_type p = s) /\
  (forall s, rq !! "bedrooms" = Some s -> s <> "" ->
             jeq (p_bedrooms p) (StringToNumber s) = true) /\
  (forall s, rq !! "bathrooms" = Some s -> s <> "" ->
             jeq (p_bathrooms p) (StringToNumber s) = true).
Proof.
  intros Hr Hp.
  destruct (returned_matches _ _ _ _ _ _ Hr Hp) as (a & q & B & _ & M & _).
  apply build_query_filters in B. destruct B as (_ & Bt & Bb & Bh & _).
  apply matches_fields_parts in M. destruct M as (_ & Mt & Mb & Mh & _).
  rewrite Bt in Mt. rewrite Bb in Mb. rewrite Bh in Mh.
  repeat split; intros s Hs Hne; apply present_some in Hs; trivial.
  - rewrite Hs in Mt. simpl in Mt. now apply String.eqb_eq.
  - rewrite Hs in Mb. exact Mb.
  - rewrite Hs in Mh. exact Mh.
Qed.

(** X5.  The agent-scoped route returns only listings of the requester, and
    with a [status] parameter only listings in that status; without a
    requester it answers 401. *)
Theorem agent_route_is_scoped (rev : revision) (db : list Property)
    (rq : gmap string string) :
  (forall u p, returned (get_user_properties rev db (Some u) rq) p ->
               p_agent p = u_id u /\
               forall s, rq !! "status" = Some s -> s <> "" -> p_status p = s) /\
  get_user_properties rev db None rq = MessageResponse 401 false "User not authenticated".
Proof.
  split; [|reflexivity]. intros u p (e & E & Hp).
  unfold get_user_properties in E.
  destruct (build_query rev (Some (u_id u)) rq) as [q|] eqn:B; [|discriminate].
  destruct (returned_selected _ _ _ _ _ E Hp) as [_ M].
  apply build_query_filters in B. destruct B as (Ba & _ & _ & _ & Bs & _).
  apply matches_fields_parts in M. destruct M as (Ma & _ & _ & _ & Ms & _).
  rewrite Ba in Ma. rewrite Bs in Ms. simpl in Ma. split.
  - now apply String.eqb_eq.
  - intros s Hs Hne. rewrite (present_some _ _ Hs Hne) in Ms. now apply String.eqb_eq.
Qed.

(** *** Order, pages and the geospatial guard *)

Lemma sort_by_not_desc f o l :
  o <> "desc" -> sort_by f o l = sort_by f "asc" l.
Proof.
  intros Ho. unfold sort_by. apply String.eqb_neq in Ho. now rewrite Ho.
Qed.

(** X6.  Only the exact value [desc] sorts in descending order: any other value
    of [order] gives the answer of [order=asc]. *)
Theorem order_other_than_desc_is_ascending (rev : revision) (db : list Property)
    (user : option User) (rq : gmap string string) (o : string) :
  rq !! "order" = Some o -> o <> "desc" ->
  get_properties rev db rq = get_properties rev db (<["order" := "asc"]> rq) /\
  get_user_properties rev db user rq
    = get_user_properties rev db user (<["order" := "asc"]> rq).
Proof.
  intros Ho Hne.
  assert (Hr : forall q, run_listing db q rq = run_listing db q (<["order" := "asc"]> rq)).
  { intros q. unfold run_listing, countDocuments, find, page_of, limit_of, sort_of, order_of.
    rewrite lookup_insert_eq.
    rewrite !lookup_insert_ne by (intros E; apply String.eqb_eq in E; discriminate E).
    rewrite Ho. simpl. destruct (selector q) as [f|]; [|reflexivity]. simpl.
    rewrite (sort_by_not_desc _ o) by assumption. reflexivity. }
  unfold get_properties, get_user_properties.
  rewrite build_query_insert_paging by (simpl; tauto). split.
  - destruct (build_query rev None rq); [apply Hr|reflexivity].
  - destruct user as [u|]; [|reflexivity].
    rewrite build_query_insert_paging by (simpl; tauto).
    destruct (build_query rev (Some (u_id u)) rq); [apply Hr|reflexivity].
Qed.


Lemma Qred_zero (q : Q) : Qred (q * 0) = 0 # 1.
Proof.
  rewrite (Qred_complete (q * 0) (0 # 1)); [apply Qred_int|]. ring.
Qed.

(** X8.  When [limit] is a zero, [pages] is not a finite number.  For a
    zero that is written without a minus sign the limit is removed: the
    page holds every match whatever [page] is, and [pages] is Infinity, or
    NaN when nothing matches.  (A zero written with a minus sign is the
    negative zero, and the quotient by it is not the one stated here.) *)
Theorem limit_zero_is_unlimited (rev : revision) (db : list Property)
    (user : option User) (rq : gmap string string) (e : Envelope) :
  listing_response rev db user rq (ListResponse e) ->
  limit_of rq = jint 0 ->
  is_finite (pages e) = false /\
  ((forall s, rq !! "limit" = Some s -> minus_signed s = false) ->
   count e = total e /\
   pages e = match total e with O => NaN | S _ => PosInf end).
Proof.
  intros Hr HL.
  cut (count e = total e /\
       pages e = match total e with O => NaN | S _ => PosInf end).
  { intros [Hc Hp]. split; [|intros _; now split].
    rewrite Hp. now destruct (total e). }
  destruct (listing_response_query _ _ _ _ _ Hr) as (a & q & B & R).
  pose proof (run_listing_sort _ _ _ _ R) as Hsort.
  apply run_listing_envelope in R.
  destruct R as (f & l0 & Hsel & Htot & Hskip & Hlim & Hcount & Hpages).
  rewrite HL in Hskip, Hlim, Hpages. split.
  - injection Hlim as Hl. rewrite Hcount, <- Hl, Htot.
    unfold skip in Hskip.
    destruct (jsub (page_of rq) (jint 1)) as [x| | |]; simpl in Hskip; try discriminate.
    rewrite Qred_zero in Hskip. simpl in Hskip. injection Hskip as <-.
    rewrite drop_0. apply sort_by_length.
  - rewrite Hpages. destruct (total e); reflexivity.
Qed.

Lemma geo_filter_partial rev lat lng radius :
  present lat = None \/ present lng = None \/ present radius = None ->
  geo_filter rev lat lng radius = None.
Proof.
  unfold geo_filter. intros [-> | [-> | ->]]; repeat (destruct (present _)); reflexivity.
Qed.

Lemma without_geo_other rq k :
  k <> "lat" -> k <> "lng" -> k <> "radius" -> without_geo rq !! k = rq !! k.
Proof.
  intros. unfold without_geo. now rewrite !lookup_delete_ne by congruence.
Qed.

Lemma build_query_without_geo rev a rq :
  present (rq !! "lat") = None \/ present (rq !! "lng") = None \/
  present (rq !! "radius") = None ->
  build_query rev a (without_geo rq) = build_query rev a rq.
Proof.
  intros Hp. unfold build_query.
  assert (Hg : geo_filter rev (without_geo rq !! "lat") (without_geo rq !! "lng")
                 (without_geo rq !! "radius") = None).
  { apply geo_filter_partial. left. unfold without_geo. now rewrite lookup_delete_eq. }
  rewrite Hg, (geo_filter_partial rev (rq !! "lat") _ _ Hp).
  rewrite !without_geo_other by (intros E; apply String.eqb_eq in E; discriminate E).
  reflexivity.
Qed.

(** X9.  The geospatial filter needs [lat], [lng] and [radius] together: when
    one of them is absent or empty the other two are ignored, and the
    answer is that of the request without the three parameters. *)
Theorem partial_coordinates_are_ignored (rev : revision) (db : list Property)
    (user : option User) (rq : gmap string string) :
  present (rq !! "lat") = None \/ present (rq !! "lng") = None \/
  present (rq !! "radius") = None ->
  get_properties rev db rq = get_properties rev db (without_geo rq) /\
  get_user_properties rev db user rq = get_user_properties rev db user (without_geo rq).
Proof.
  intros Hp.
  assert (Hr : forall q, run_listing db q (without_geo rq) = run_listing db q rq).
  { intros q. unfold without_geo.
    rewrite !run_listing_delete by (intros E; apply String.eqb_eq in E; discriminate E).
    reflexivity. }
  unfold get_properties, get_user_properties.
  rewrite build_query_without_geo by assumption. split.
  - destruct (build_query rev None rq); [now rewrite Hr|reflexivity].
  - destruct user as [u|]; [|reflexivity].
    rewrite build_query_without_geo by assumption.
    destruct (build_query rev (Some (u_id u)) rq); [now rewrite Hr|reflexivity].
Qed.

End MoreListing.

(** ** The collection under [save], [deleteOne] and [create] *)

Lemma findById_save_other id p db :
  id <> p_id p -> findById id (save p db) = findById id db.
Proof.
  intros Hne. unfold findById, save. induction db as [|d r IH]; simpl; [reflexivity|].
  destruct (String.eqb_spec (p_id d) (p_id p)) as [E|E]; simpl.
  - destruct (String.eqb_spec (p_id p) id) as [E'|_]; [now symmetry in E'|].
    destruct (String.eqb_spec (p_id d) id) as [E'|_]; [congruence|]. exact IH.
  - destruct (String.eqb (p_id d) id); [reflexivity|exact IH].
Qed.

Lemma save_ids p db : map p_id (save p db) = map p_id db.
Proof.
  unfold save. induction db as [|d r IH]; simpl; [reflexivity|].
  rewrite IH. f_equal. destruct (String.eqb_spec (p_id d) (p_id p)); congruence.
Qed.

Lemma save_length p db : length (save p db) = length db.
Proof. unfold save. apply length_map. Qed.

Lemma findById_deleteOne id p db :
  findById id (deleteOne p db) = if String.eqb id (p_id p) then None else findById id db.
Proof.
  unfold findById, deleteOne. induction db as [|d r IH]; simpl.
  - now destruct (String.eqb id (p_id p)).
  - destruct (String.eqb_spec (p_id d) (p_id p)) as [E|E]; simpl.
    + rewrite IH. destruct (String.eqb_spec id (p_id p)) as [E'|E']; [reflexivity|].
      destruct (String.eqb_spec (p_id d) id); [congruence|reflexivity].
    + destruct (String.eqb_spec (p_id d) id) as [E'|E'].
      * destruct (String.eqb_spec id (p_id p)); [congruence|reflexivity].
      * exact IH.
Qed.

Lemma deleteOne_ids p db :
  map p_id (deleteOne p db)
    = List.filter (fun i => negb (String.eqb i (p_id p))) (map p_id db).
Proof.
  unfold deleteOne. induction db as [|d r IH]; simpl; [reflexivity|].
  destruct (String.eqb (p_id d) (p_id p)); simpl; now rewrite IH.
Qed.

Lemma findById_None_ids id db : findById id db = None <-> ~ In id (map p_id db).
Proof.
  unfold findById. induction db as [|d r IH]; simpl; [tauto|].
  destruct (String.eqb_spec (p_id d) id) as [E|E].
  - split; [discriminate|]. intros Hn. exfalso. apply Hn. now left.
  - rewrite IH. tauto.
Qed.

Lemma findById_app id db p :
  findById id (db ++ [p])
    = match findById id db with
      | Some d => Some d
      | None => if String.eqb (p_id p) id then Some p else None
      end.
Proof.
  unfold findById. induction db as [|d r IH]; simpl; [reflexivity|].
  destruct (String.eqb (p_id d) id); [reflexivity|exact IH].
Qed.

Lemma destroy_images_spec imgs (c : gset string) (x : string) :
  x ∈ destroy_images imgs c <-> x ∈ c /\ ~ In x (map public_id imgs).
Proof.
  unfold destroy_images. revert c. induction imgs as [|i r IH]; intros c; simpl.
  - tauto.
  - rewrite IH. rewrite elem_of_difference, elem_of_singleton. split.
    + intros [[Hc Hi] Hr]. split; [assumption|]. intros [E|E]; [congruence|contradiction].
    + intros [Hc Hn]. split; [split; [assumption|]|]; intros E; apply Hn; auto.
Qed.

Section MoreSingle.
Context {C : Collaborators}.

(** ** GET /:id, PATCH /:id/status and DELETE /:id *)

(** X10.  A fetch touches one listing: the asset store, the number of documents
    and every other listing stay as they were, and an answer other than
    200 changes nothing. *)
Theorem fetch_touches_one_listing (st st' : State) (id : string) (r : response) :
  get_property st id = (r, st') ->
  cloud st' = cloud st /\
  map p_id (docs st') = map p_id (docs st) /\
  (forall id', id' <> id -> findById id' (docs st') = findById id' (docs st)) /\
  (st' = st \/ status_code r = Some 200).
Proof.
  unfold get_property.
  destruct (isValidObjectId id); simpl; [|intros [= <- <-]; auto].
  destruct (findById id (docs st)) as [p|] eqn:F; [|intros [= <- <-]; auto].
  destruct ((0 <=? p_views p + 1) && revalidates _); [|intros [= <- <-]; auto].
  intros [= <- <-]. simpl. apply findById_id in F.
  repeat split; auto using save_ids.
  intros id' Hne. apply findById_save_other. simpl. congruence.
Qed.

(** X11.  The listing's agent or an administrator sets the status: the answer is
    the listing with the new status and nothing else changed, it is the
    stored document afterwards, and no other listing is touched.  For a
    listing that does not exist the answer is 404, for another requester
    403, both without a change. *)
Theorem status_update_sets_only_status (st : State) (id : string) (user : User)
    (s : string) :
  isValidObjectId id = true -> In s status_values ->
  (findById id (docs st) = None ->
   patch_status st id user (JStr s) = (not_found, st)) /\
  (forall p, findById id (docs st) = Some p ->
     (isOwner p user = false ->
      patch_status st id user (JStr s) = (not_authorized, st)) /\
     (isOwner p user = true -> revalidates (with_status p s) = true ->
      exists st',
        patch_status st id user (JStr s) = (PropertyResponse 200 (with_status p s), st') /\
        findById id (docs st') = Some (with_status p s) /\
        cloud st' = cloud st /\
        forall id', id' <> id -> findById id' (docs st') = findById id' (docs st))).
Proof.
  intros Hv Hs. apply mem_string_In in Hs.
  unfold patch_status, includes_status. rewrite Hv, Hs.
  cbn [negb]. split.
  - now intros ->.
  - intros p F. rewrite F. split.
    + now intros ->.
    + intros -> Hr. simpl. rewrite Hr. eexists. split; [reflexivity|]. simpl.
      pose proof (findById_id _ _ _ F) as Hid. repeat split.
      * eapply findById_save; [exact F|exact Hid].
      * intros id' Hne. apply findById_save_other. simpl. congruence.
Qed.

(** X12.  A delete by the listing's agent or by an administrator removes the
    listing and exactly its images: the listing is no longer found, every
    other listing is found as before, and an image is in the asset store
    afterwards when it was there before and is not one of the listing's. *)
Theorem delete_removes_listing_and_images (st : State) (id : string) (user : User)
    (p : Property) :
  isValidObjectId id = true -> findById id (docs st) = Some p ->
  p_agent p = u_id user \/ role user = "admin" ->
  exists st',
    delete_property st id user = (MessageResponse 200 true "Property deleted", st') /\
    findById id (docs st') = None /\
    (forall id', id' <> id -> findById id' (docs st') = findById id' (docs st)) /\
    (forall x, x ∈ cloud st' <-> x ∈ cloud st /\ ~ In x (map public_id (p_images p))).
Proof.
  intros Hv F Ho. unfold delete_property. rewrite Hv, F. simpl.
  assert (Hown : isOwner p user = true).
  { unfold isOwner. destruct Ho as [-> | ->]; rewrite String.eqb_refl;
      [reflexivity|apply orb_true_r]. }
  rewrite Hown. simpl. eexists. split; [reflexivity|]. simpl.
  pose proof (findById_id _ _ _ F) as Hid. split; [|split].
  - rewrite findById_deleteOne, Hid. now rewrite String.eqb_refl.
  - intros id' Hne. rewrite findById_deleteOne, Hid.
    apply String.eqb_neq in Hne. now rewrite Hne.
  - intros x. apply destroy_images_spec.
Qed.

(** ** PUT /:id *)

(** X13.  An update changes the state only for the listing's agent or an
    administrator: for everybody else neither the collection nor the asset
    store changes, also when new images came with the request. *)
Theorem update_requires_owner_or_admin (st st' : State) (id : string) (user : User)
    (req : payload) (r : response) :
  update_property st id user req = (r, st') ->
  st' = st \/
  exists p, isValidObjectId id = true /\ findById id (docs st) = Some p /\
            (p_agent p = u_id user \/ role user = "admin").
Proof.
  unfold update_property.
  destruct (isValidObjectId id); simpl; [|intros [= _ <-]; now left].
  destruct (findById id (docs st)) as [p|]; [|intros [= _ <-]; now left].
  destruct (isOwner p user) eqn:Ho; simpl; [|intros [= _ <-]; now left].
  intros _. right. exists p. repeat split.
  unfold isOwner in Ho. apply orb_true_iff in Ho.
  destruct Ho as [Ho|Ho]; apply String.eqb_eq in Ho; auto.
Qed.

(** X14.  A successful update keeps the identifier, the agent, the creation
    time, the status and the view counter of the listing; the images are
    those of the uploaded files when there is at least one, and the old
    ones otherwise.  The answer is the stored document. *)
Theorem update_keeps_identity (st st' : State) (id : string) (user : User)
    (req : payload) (s : Z) (p p' : Property) :
  findById id (docs st) = Some p ->
  update_property st id user req = (PropertyResponse s p', st') ->
  p_id p' = p_id p /\ p_agent p' = p_agent p /\ p_createdAt p' = p_createdAt p /\
  p_status p' = p_status p /\ p_views p' = p_views p /\
  p_images p' = match files req with
                | Some (f :: fs) => images_of (f :: fs)
                | _ => p_images p
                end /\
  findById id (docs st') = Some p'.
Proof.
  intros F E. unfold update_property in E.
  destruct (isValidObjectId id); simpl in E; [|discriminate].
  rewrite F in E. destruct (isOwner p user); simpl in E; [|discriminate].
  destruct (updated_document p req) as [d|] eqn:U; [|discriminate].
  destruct (revalidates d); [|discriminate].
  injection E as _ <- <-. simpl.
  unfold updated_document in U. simplify_option_eq. simpl.
  repeat split.
  - unfold new_files. destruct (files req) as [[|f fs]|]; reflexivity.
  - eapply findById_save; [exact F|]. simpl. eapply findById_id; exact F.
Qed.

(** X15.  The old images are destroyed before the document is saved: when new
    files came with the request and the save fails, the answer is 500, the
    stored listing is unchanged and still names its old images, and those
    images are gone from the asset store. *)
Theorem failed_update_loses_old_images (st : State) (id : string) (user : User)
    (req : payload) (p : Property) (f : File) (fs : list File) :
  isValidObjectId id = true -> findById id (docs st) = Some p ->
  isOwner p user = true -> files req = Some (f :: fs) ->
  updated_document p req = None ->
  exists st',
    update_property st id user req = (server_error, st') /\
    docs st' = docs st /\
    forall x, In x (map public_id (p_images p)) -> x ∉ cloud st'.
Proof.
  intros Hv F Ho Hf U. unfold update_property, new_files.
  rewrite Hv, F, Ho, Hf, U. simpl. eexists. split; [reflexivity|]. simpl.
  split; [reflexivity|]. intros x Hx Hin.
  apply destroy_images_spec in Hin. tauto.
Qed.

End MoreSingle.

(** ** POST / and what a body can set *)

Lemma body_insert_multipart k v f fs k' :
  k' <> k -> body (Multipart (<[k := v]> f) fs) k' = body (Multipart f fs) k'.
Proof. intros Hne. simpl. now rewrite lookup_insert_ne by congruence. Qed.

Lemma body_insert_json k v f k' :
  k' <> k -> body (Json (<[k := v]> f)) k' = body (Json f) k'.
Proof. intros Hne. simpl. now rewrite lookup_insert_ne by congruence. Qed.

Lemma new_document_insert {C : Collaborators} fresh now user k v f fs :
  ~ In k create_fields ->
  new_document fresh now user (Multipart (<[k := v]> f) fs) =
  new_document fresh now user (Multipart f fs).
Proof.
  intros Hk. unfold new_document.
  rewrite !body_insert_multipart by (intros E; apply Hk; rewrite <- E; simpl; tauto).
  reflexivity.
Qed.

Lemma updated_document_insert_multipart {C : Collaborators} p k v f fs :
  ~ In k create_fields ->
  updated_document p (Multipart (<[k := v]> f) fs) = updated_document p (Multipart f fs).
Proof.
  intros Hk. unfold updated_document.
  rewrite !body_insert_multipart by (intros E; apply Hk; rewrite <- E; simpl; tauto).
  reflexivity.
Qed.

Lemma updated_document_insert_json {C : Collaborators} p k v f :
  ~ In k create_fields ->
  updated_document p (Json (<[k := v]> f)) = updated_document p (Json f).
Proof.
  intros Hk. unfold updated_document.
  rewrite !body_insert_json by (intros E; apply Hk; rewrite <- E; simpl; tauto).
  reflexivity.
Qed.

Section MoreWrites.
Context {C : Collaborators}.

(** X16.  Only the eleven fields the handlers name are read from a body: a field
    with any other name (views, status, agent, createdAt, _id, images, ...)
    changes neither the answer nor the stored listing of a create or of an
    update, in a form and in a JSON body. *)
Theorem other_body_fields_are_ignored (st : State) (id fresh : string) (now : Z)
    (user : User) (k : string) :
  ~ In k create_fields ->
  (forall f fs v,
     create_property st fresh now user (Multipart (<[k := v]> f) fs) =
     create_property st fresh now user (Multipart f fs) /\
     update_property st id user (Multipart (<[k := v]> f) fs) =
     update_property st id user (Multipart f fs)) /\
  (forall f v,
     update_property st id user (Json (<[k := v]> f)) =
     update_property st id user (Json f)).
Proof.
  intros Hk. split; [intros f fs v; split|intros f v].
  - unfold create_property. now rewrite new_document_insert.
  - unfold update_property.
    destruct (isValidObjectId id); simpl; [|reflexivity].
    destruct (findById id (docs st)) as [p|]; [|reflexivity].
    now rewrite updated_document_insert_multipart.
  - unfold update_property.
    destruct (isValidObjectId id); simpl; [|reflexivity].
    destruct (findById id (docs st)) as [p|]; [|reflexivity].
    now rewrite updated_document_insert_json.
Qed.

(** X17.  A listing created under an identifier no stored listing has is the one
    a fetch of that identifier answers, with one view; it belongs to the
    requester and is active, and every listing stored before is found as
    before. *)
Theorem created_listing_is_fetched (st st1 : State) (fresh : string) (now : Z)
    (user : User) (req : payload) (s : Z) (p : Property) :
  isValidObjectId fresh = true -> findById fresh (docs st) = None ->
  create_property st fresh now user req = (PropertyResponse s p, st1) ->
  revalidates (with_views p 1) = true ->
  s = 201 /\ p_agent p = u_id user /\ p_status p = "active" /\
  (exists st2, get_property st1 fresh = (PropertyResponse 200 (with_views p 1), st2)) /\
  (forall id q, findById id (docs st) = Some q -> findById id (docs st1) = Some q).
Proof.
  intros Hv Hn E Hr. unfold create_property in E.
  destruct (new_document fresh now user req) as [d|] eqn:N; [|discriminate].
  injection E as <- <- <-.
  assert (Hd : p_id d = fresh /\ p_agent d = u_id user /\ p_status d = "active" /\
               p_views d = 0).
  { unfold new_document in N. simplify_option_eq. simpl. auto. }
  destruct Hd as (Hid & Ha & Hs & Hw).
  split; [reflexivity|]. split; [assumption|]. split; [assumption|]. split.
  - unfold get_property. rewrite Hv. cbn [negb docs].
    rewrite findById_app, Hn, Hid, String.eqb_refl, Hw.
    change (0 + 1) with 1.
    assert (Hw1 : p_views (with_views d 1) = 1) by reflexivity.
    rewrite Hw1, Hr. eexists. reflexivity.
  - intros id q F. simpl. now rewrite findById_app, F.
Qed.

End MoreWrites.

(** ** Amenities on create and on update *)

Lemma split_comma_pieces s x : In x (split_comma s) -> mem_ascii ","%char x = false.
Proof.
  revert x. induction s as [|c r IH]; cbn [split_comma]; intros x Hx.
  - destruct Hx as [<-|[]]. reflexivity.
  - destruct (Ascii.eqb c ","%char) eqn:Ec.
    + destruct Hx as [<-|Hx]; [reflexivity|auto].
    + rewrite Ascii.eqb_sym in Ec. destruct (split_comma r) as [|h t] eqn:Es.
      * destruct Hx as [<-|[]]. cbn [mem_ascii]. now rewrite Ec.
      * destruct Hx as [<-|Hx].
        -- cbn [mem_ascii]. rewrite Ec. apply IH. now left.
        -- apply IH. now right.
Qed.

Lemma trim_start_keeps c s :
  mem_ascii c (trim_start s) = true -> mem_ascii c s = true.
Proof.
  induction s as [|a r IH]; cbn [trim_start]; [auto|].
  destruct (is_ws a); [|auto]. intros H. cbn [mem_ascii].
  rewrite (IH H). apply orb_true_r.
Qed.

Lemma trim_end_keeps c s :
  mem_ascii c (trim_end s) = true -> mem_ascii c s = true.
Proof.
  induction s as [|a r IH]; cbn [trim_end]; [auto|].
  destruct (trim_end r) as [|b r'] eqn:E.
  - destruct (is_ws a); cbn [mem_ascii]; [discriminate|].
    rewrite orb_false_r. intros ->. reflexivity.
  - intros H. change (Ascii.eqb c a || mem_ascii c (String b r') = true) in H.
    cbn [mem_ascii]. apply orb_true_iff in H. destruct H as [->|H].
    + reflexivity.
    + rewrite (IH H). apply orb_true_r.
Qed.

Lemma trim_without_comma x :
  mem_ascii ","%char x = false -> mem_ascii ","%char (trim x) = false.
Proof.
  intros H. destruct (mem_ascii ","%char (trim x)) eqn:E; [|reflexivity].
  unfold trim in E. apply trim_end_keeps, trim_start_keeps in E. congruence.
Qed.

Lemma trim_start_comma s :
  mem_ascii ","%char s = true -> mem_ascii ","%char (trim_start s) = true.
Proof.
  induction s as [|a r IH]; cbn [trim_start]; [auto|].
  destruct (is_ws a) eqn:W; [|auto]. cbn [mem_ascii].
  destruct (Ascii.eqb ","%char a) eqn:E; [|exact IH].
  apply Ascii.eqb_eq in E. subst a. discriminate W.
Qed.

Lemma trim_end_comma s :
  mem_ascii ","%char s = true -> mem_ascii ","%char (trim_end s) = true.
Proof.
  induction s as [|a r IH]; cbn [trim_end mem_ascii]; [auto|].
  destruct (Ascii.eqb ","%char a) eqn:E.
  - intros _. destruct (trim_end r); [destruct (is_ws a) eqn:W|]; cbn [mem_ascii].
    + apply Ascii.eqb_eq in E. subst a. discriminate W.
    + now rewrite E.
    + now rewrite E.
  - intros H. specialize (IH H). destruct (trim_end r) as [|b r'].
    + discriminate IH.
    + change (Ascii.eqb ","%char a || mem_ascii ","%char (String b r') = true).
      rewrite E. exact IH.
Qed.

Lemma all_in_refl tags : tags <> [] -> all_in tags tags = true.
Proof.
  intros Hne. destruct tags as [|t r]; [contradiction|].
  unfold all_in. apply forallb_forall. intros x Hx. now apply mem_string_In.
Qed.

Section Amenities.
Context {C : Collaborators}.

(** X18.  The amenities string of a form is split at the commas on create and
    kept whole on update.  A listing created with a non-empty amenities
    string has every tag the filter makes of the same string; after a
    successful update with a string that contains a comma the listing has
    the one trimmed string as its only amenity, and no listing route
    returns it for that same string. *)
Theorem amenities_are_split_on_create_only (rev : revision) (st st1 : State)
    (id : string) (now : Z) (user : User) (f : gmap string string)
    (fs : list File) (a : string) (s : Z) (p : Property) :
  f !! "amenities" = Some a -> a <> "" ->
  (create_property st id now user (Multipart f fs) = (PropertyResponse s p, st1) ->
   exists tags, amenities_filter (Some a) = Some tags /\
                p_amenities p = tags /\ all_in tags (p_amenities p) = true) /\
  (update_property st id user (Multipart f fs) = (PropertyResponse s p, st1) ->
   mem_ascii ","%char a = true ->
   p_amenities p = [trim a] /\
   forall db viewer rq r,
     rq !! "amenities" = Some a ->
     listing_response rev db viewer rq r -> ~ returned r p).
Proof.
  intros Hf Ha. apply String.eqb_neq in Ha.
  assert (Hb : body (Multipart f fs) "amenities" = JStr a) by (simpl; now rewrite Hf).
  split.
  - intros E. apply create_property_success in E. destruct E as [N _].
    unfold amenities_filter, present. rewrite Ha. eexists. split; [reflexivity|].
    assert (Hp : p_amenities p = map trim (split_comma a)).
    { unfold new_document in N. rewrite Hb in N. unfold create_amenities in N.
      simpl truthy in N. rewrite Ha in N. simplify_option_eq. reflexivity. }
    split; [exact Hp|]. rewrite Hp. apply all_in_refl.
    intros E. apply map_eq_nil in E. now apply split_comma_not_nil in E.
  - intros E Hc. apply update_property_success in E. destruct E as (p0 & _ & U).
    assert (Hp : p_amenities p = [trim a]).
    { unfold updated_document in U. rewrite Hb in U. unfold update_amenities, js_or in U.
      simpl truthy in U. rewrite Ha in U. simplify_option_eq. reflexivity. }
    split; [exact Hp|]. intros db viewer rq r Hrq Hl Hret.
    destruct (returned_matches _ _ _ _ _ _ Hl Hret) as (ag & q & Hq & _ & Hm & _).
    apply build_query_amenities in Hq. rewrite Hrq in Hq.
    unfold amenities_filter, present in Hq. rewrite Ha in Hq.
    pose proof (matches_fields_amenities _ _ _ Hm Hq) as Hall.
    rewrite Hp in Hall.
    destruct (split_comma a) as [|x xs] eqn:Es; [now apply split_comma_not_nil in Es|].
    pose proof (all_in_In _ _ Hall (trim x) (or_introl eq_refl)) as Hin.
    destruct Hin as [Hin|[]].
    assert (Hx : mem_ascii ","%char (trim x) = false).
    { apply trim_without_comma, (split_comma_pieces a). rewrite Es. now left. }
    rewrite <- Hin in Hx. unfold trim in Hx.
    rewrite trim_end_comma in Hx; [discriminate|]. now apply trim_start_comma.
Qed.

End Amenities.

(** ** GET /locations *)

Lemma distinct_In x l : In x (distinct l) <-> In x l.
Proof.
  induction l as [|y r IH]; cbn [distinct In]; [tauto|].
  pose proof (List.filter_In (fun y0 => negb (String.eqb y y0)) x (distinct r)) as Hf.
  cbv beta in Hf. destruct (String.eqb_spec y x) as [E|E]; simpl in Hf.
  - tauto.
  - split; [tauto|]. intros [H|H]; [tauto|]. right. apply Hf. tauto.
Qed.

Lemma distinct_NoDup l : NoDup (distinct l).
Proof.
  apply NoDup_ListNoDup.
  induction l as [|y r IH]; cbn [distinct]; [constructor|].
  constructor.
  - intros H. apply List.filter_In in H. destruct H as [_ H].
    now rewrite String.eqb_refl in H.
  - now apply List.NoDup_filter.
Qed.

Lemma unique_ids_cons d r :
  unique_ids (d :: r) <-> ~ In (p_id d) (map p_id r) /\ unique_ids r.
Proof.
  unfold unique_ids. rewrite !NoDup_ListNoDup. apply List.NoDup_cons_iff.
Qed.

Section Locations.
Context {C : Collaborators}.

(** X19.  The answer of GET /locations lists each location once, its count is
    the number of locations listed, and a location is listed exactly when
    a stored listing has it and, with a non-empty search parameter, the
    expression made of that parameter matches it. *)
Theorem locations_are_distinct (db : list Property) (rq : gmap string string)
    (n : nat) (locations : list string) :
  get_locations db rq = LocationsResponse n locations ->
  n = length locations /\ NoDup locations /\
  forall l, In l locations <->
    (exists p, In p db /\ p_location p = l) /\
    forall s, present (rq !! "search") = Some s ->
      exists re, new_RegExp_i s = Some re /\ RegExp_test re l = true.
Proof.
  unfold get_locations. destruct (present (rq !! "search")) as [s|].
  - destruct (new_RegExp_i s) as [re|] eqn:R; [|discriminate].
    intros [= <- <-]. split; [reflexivity|]. split; [apply distinct_NoDup|].
    intros l. rewrite distinct_In, in_map_iff. split.
    + intros (p & <- & Hp). apply List.filter_In in Hp. destruct Hp as [Hp Ht].
      split; [now exists p|]. intros s' [= <-]. exists re. now split.
    + intros [(p & Hp & <-) Hs]. destruct (Hs s eq_refl) as (re' & R' & Ht).
      rewrite R in R'. injection R' as <-.
      exists p. split; [reflexivity|]. apply List.filter_In. now split.
  - intros [= <- <-]. split; [reflexivity|]. split; [apply distinct_NoDup|].
    intros l. rewrite distinct_In, in_map_iff. split.
    + intros (p & <- & Hp). split; [now exists p|]. discriminate.
    + intros [(p & Hp & <-) _]. now exists p.
Qed.

End Locations.

(** ** DELETE /api/admin/properties/:id *)

Section AdminDelete.
Context {C : Collaborators}.

(** X20.  The administrator's delete never touches the asset store, so the
    images of a listing it removes stay there; an identifier that is no
    object id is answered 500, not 400, and a 200 means the listing
    existed and is gone while every other listing is found as before. *)
Theorem admin_delete_leaves_images (remove_available : bool) (st st' : State)
    (id : string) (r : admin_response) :
  admin_delete_property remove_available st id = (r, st') ->
  cloud st' = cloud st /\
  (isValidObjectId id = false -> r = AdminMessage 500 "Server error" /\ st' = st) /\
  (r = AdminMessage 200 "Property deleted" ->
   (exists p, findById id (docs st) = Some p) /\
   findById id (docs st') = None /\
   forall id', id' <> id -> findById id' (docs st') = findById id' (docs st)).
Proof.
  unfold admin_delete_property.
  destruct (isValidObjectId id); cbn [negb].
  - destruct (findById id (docs st)) as [p|] eqn:F.
    + destruct remove_available; intros [= <- <-].
      * split; [reflexivity|]. split; [discriminate|]. intros _.
        pose proof (findById_id _ _ _ F) as Hid. cbn [docs].
        split; [now exists p|]. split.
        -- rewrite findById_deleteOne, Hid. now rewrite String.eqb_refl.
        -- intros id' Hne. rewrite findById_deleteOne, Hid.
           apply String.eqb_neq in Hne. now rewrite Hne.
      * split; [reflexivity|]. split; discriminate.
    + intros [= <- <-]. split; [reflexivity|]. split; discriminate.
  - intros [= <- <-]. split; [reflexivity|]. split; [auto|discriminate].
Qed.

End AdminDelete.

(** ** GET /analytics *)

Lemma count_type_cons type p l :
  count_type type (p :: l)
    = ((if String.eqb (p_type p) type then 1 else 0) + count_type type l)%nat.
Proof. unfold count_type. simpl. now destruct (String.eqb (p_type p) type). Qed.

Lemma type_counts_le l :
  (count_type "house" l + (count_type "apartment" l +
     (count_type "condo" l + (count_type "land" l + 0))) <= length l)%nat.
Proof.
  induction l as [|p r IH]; [simpl; lia|].
  rewrite !count_type_cons. cbn [length].
  destruct (String.eqb_spec (p_type p) "house") as [E|_];
    [rewrite E; simpl; lia|].
  destruct (String.eqb_spec (p_type p) "apartment") as [E|_];
    [rewrite E; simpl; lia|].
  destruct (String.eqb_spec (p_type p) "condo") as [E|_];
    [rewrite E; simpl; lia|].
  destruct (String.eqb (p_type p) "land"); lia.
Qed.

Lemma type_counts_eq l :
  (forall p, In p l -> In (p_type p) property_types) ->
  (count_type "house" l + (count_type "apartment" l +
     (count_type "condo" l + (count_type "land" l + 0))) = length l)%nat.
Proof.
  induction l as [|p r IH]; intros Ht; [reflexivity|].
  rewrite !count_type_cons. cbn [length].
  specialize (IH (fun q Hq => Ht q (or_intror Hq))).
  destruct (Ht p (or_introl eq_refl)) as [E|[E|[E|[E|[]]]]];
    rewrite <- E; simpl; lia.
Qed.

Lemma sum_views_from l z :
  fold_left (fun sum p => sum + p_views p) l z = z + sum_views l.
Proof.
  unfold sum_views. revert z. induction l as [|p r IH]; intros z; cbn [fold_left]; [lia|].
  rewrite (IH (z + p_views p)), (IH (0 + p_views p)). lia.
Qed.

Lemma sum_views_cons p l : sum_views (p :: l) = p_views p + sum_views l.
Proof. unfold sum_views at 1. cbn [fold_left]. rewrite sum_views_from. lia. Qed.

Lemma sum_prices_map l :
  sum_prices l = fold_left jadd (map p_price l) (jint 0).
Proof.
  unfold sum_prices. generalize (jint 0). induction l as [|p r IH]; intros z; simpl;
    [reflexivity|apply IH].
Qed.

Lemma save_absent p db : ~ In (p_id p) (map p_id db) -> save p db = db.
Proof.
  unfold save. induction db as [|d r IH]; simpl; intros Hn; [reflexivity|].
  destruct (String.eqb_spec (p_id d) (p_id p)) as [E|_]; [exfalso; auto|].
  f_equal. apply IH. tauto.
Qed.

(** What one [save] of a listing whose agent, price and type are unchanged
    does to the figures of an agent. *)
Lemma listings_of_save u p0 p' db :
  unique_ids db -> In p0 db -> p_id p' = p_id p0 -> p_agent p' = p_agent p0 ->
  p_price p' = p_price p0 -> p_type p' = p_type p0 ->
  length (listings_of u (save p' db)) = length (listings_of u db) /\
  map p_price (listings_of u (save p' db)) = map p_price (listings_of u db) /\
  map p_type (listings_of u (save p' db)) = map p_type (listings_of u db) /\
  sum_views (listings_of u (save p' db))
    = sum_views (listings_of u db)
      + (if String.eqb (p_agent p0) (u_id u) then p_views p' - p_views p0 else 0).
Proof.
  intros Hu Hin Hid Ha Hp Ht.
  induction db as [|d r IH]; [contradiction|].
  apply unique_ids_cons in Hu. destruct Hu as [Hd Hu].
  destruct Hin as [->|Hin].
  - change (save p' (p0 :: r))
      with ((if String.eqb (p_id p0) (p_id p') then p' else p0) :: save p' r).
    rewrite Hid, String.eqb_refl. rewrite save_absent by now rewrite Hid.
    unfold listings_of. cbn [List.filter]. rewrite Ha.
    destruct (String.eqb (p_agent p0) (u_id u)).
    + cbn [length map]. rewrite !sum_views_cons, Hp, Ht.
      repeat split; lia.
    + repeat split; lia.
  - specialize (IH Hu Hin).
    assert (Hne : String.eqb (p_id d) (p_id p') = false).
    { apply String.eqb_neq. intros E. apply Hd. rewrite E, Hid.
      now apply in_map. }
    change (save p' (d :: r))
      with ((if String.eqb (p_id d) (p_id p') then p' else d) :: save p' r).
    rewrite Hne. unfold listings_of in *. cbn [List.filter].
    destruct IH as (I1 & I2 & I3 & I4).
    destruct (String.eqb (p_agent d) (u_id u)).
    + cbn [length map]. rewrite !sum_views_cons, I1, I2, I3, I4.
      repeat split; lia.
    + auto.
Qed.

Lemma count_type_map type l l' :
  map p_type l = map p_type l' -> count_type type l = count_type type l'.
Proof.
  unfold count_type. revert l'. induction l as [|p r IH]; intros [|p' r']; simpl;
    try discriminate; [reflexivity|].
  intros [= E1 E2]. rewrite E1. specialize (IH _ E2).
  destruct (String.eqb (p_type p') type); simpl; congruence.
Qed.

Section Analytics.
Context {C : Collaborators}.

(** X21.  The counts of the type distribution never add up to more than the
    number of listings, and to exactly that number when every listing of
    the requester has one of the four types of the schema. *)
Theorem type_distribution_sums (db : list Property) (u : User) (a : Analytics) :
  get_analytics db (Some u) = AnalyticsResponse a ->
  map fst (typeDistribution a) = property_types /\
  (list_sum (map snd (typeDistribution a)) <= totalListings a)%nat /\
  ((forall p, In p db -> p_agent p = u_id u -> In (p_type p) property_types) ->
   list_sum (map snd (typeDistribution a)) = totalListings a).
Proof.
  intros [= <-]. split; [reflexivity|]. split.
  - apply type_counts_le.
  - intros Ht. apply (type_counts_eq (listings_of u db)).
    intros p Hp. apply List.filter_In in Hp. destruct Hp as [Hp Ha].
    apply Ht; [assumption|now apply String.eqb_eq].
Qed.

(** X22.  In a collection with unique identifiers a successful fetch raises the
    total views of the listing's agent by one, leaves the total views of
    every other agent, and changes no other figure of anybody's
    analytics. *)
Theorem fetch_adds_one_view (st st' : State) (id : string) (p : Property) (u : User) :
  unique_ids (docs st) ->
  get_property st id = (PropertyResponse 200 p, st') ->
  forall a a',
    get_analytics (docs st) (Some u) = AnalyticsResponse a ->
    get_analytics (docs st') (Some u) = AnalyticsResponse a' ->
    totalViews a' = totalViews a + (if String.eqb (p_agent p) (u_id u) then 1 else 0) /\
    totalListings a' = totalListings a /\ avgPrice a' = avgPrice a /\
    typeDistribution a' = typeDistribution a.
Proof.
  intros Hu E a a' [= <-] [= <-].
  apply get_property_success in E.
  destruct E as (p0 & F & -> & Hst). 
  assert (Hd : docs st' = save (with_views p0 (p_views p0 + 1)) (docs st)).
  { now rewrite Hst. }
  pose proof (find_some _ _ F) as [Hin _].
  destruct (listings_of_save u p0 (with_views p0 (p_views p0 + 1)) (docs st)
              Hu Hin eq_refl eq_refl eq_refl eq_refl) as (L1 & L2 & L3 & L4).
  rewrite Hd. unfold analytics_of. cbn [totalViews totalListings avgPrice typeDistribution].
  split; [|split; [|split]].
  - rewrite L4. cbn [p_agent p_views with_views].
    destruct (String.eqb (p_agent p0) (u_id u)); lia.
  - exact L1.
  - rewrite !sum_prices_map, L2, L1.
    destruct (listings_of u (save _ (docs st))) as [|x xs] eqn:E1;
      destruct (listings_of u (docs st)) as [|y ys] eqn:E2;
      try discriminate L1; reflexivity.
  - unfold property_types. cbn [map].
    now rewrite !(count_type_map _ _ _ L3).
Qed.

End Analytics.

(** ** Identifiers stay unique *)

Lemma unique_ids_save p db : unique_ids db -> unique_ids (save p db).
Proof. unfold unique_ids. now rewrite save_ids. Qed.

Lemma unique_ids_deleteOne p db : unique_ids db -> unique_ids (deleteOne p db).
Proof.
  unfold unique_ids. rewrite deleteOne_ids, !NoDup_ListNoDup.
  apply List.NoDup_filter.
Qed.

Lemma unique_ids_app db p :
  unique_ids db -> findById (p_id p) db = None -> unique_ids (db ++ [p]).
Proof.
  intros Hu Hn. apply findById_None_ids in Hn.
  induction db as [|d r IH]; simpl.
  - apply unique_ids_cons. split; [intros []|]. unfold unique_ids. simpl. constructor.
  - apply unique_ids_cons in Hu. destruct Hu as [Hd Hu].
    apply unique_ids_cons. split.
    + rewrite map_app, in_app_iff. intros [H|[H|[]]]; [auto|].
      apply Hn. left. now symmetry.
    + apply IH; [assumption|]. intros H. apply Hn. now right.
Qed.

Lemma new_document_id {C : Collaborators} fresh now user req p :
  new_document fresh now user req = Some p -> p_id p = fresh.
Proof. unfold new_document. intros N. simplify_option_eq. reflexivity. Qed.

Lemma updated_document_id {C : Collaborators} p req p' :
  updated_document p req = Some p' -> p_id p' = p_id p.
Proof. unfold updated_document. intros N. simplify_option_eq. reflexivity. Qed.

Section UniqueIds.
Context {C : Collaborators}.

(** X23.  No handler makes two stored listings share an identifier: when the
    identifiers of the collection are unique they are unique after a
    fetch, a status update, an update, either delete, and a create under
    an identifier that no stored listing has. *)
Theorem handlers_keep_ids_unique (st : State) (user : User) :
  unique_ids (docs st) ->
  (forall id, unique_ids (docs (snd (get_property st id)))) /\
  (forall id status, unique_ids (docs (snd (patch_status st id user status)))) /\
  (forall id req, unique_ids (docs (snd (update_property st id user req)))) /\
  (forall id, unique_ids (docs (snd (delete_property st id user)))) /\
  (forall id b, unique_ids (docs (snd (admin_delete_property b st id)))) /\
  (forall fresh now req,
     findById fresh (docs st) = None ->
     unique_ids (docs (snd (create_property st fresh now user req)))).
Proof.
  intros Hu. repeat apply conj.
  - intros id. unfold get_property.
    destruct (isValidObjectId id); cbn [negb]; [|assumption].
    destruct (findById id (docs st)) as [p|]; [|assumption].
    destruct (_ && _); [|assumption]. now apply unique_ids_save.
  - intros id status. unfold patch_status.
    destruct (isValidObjectId id); cbn [negb]; [|assumption].
    destruct (includes_status status); cbn [negb]; [|assumption].
    destruct (findById id (docs st)) as [p|]; [|assumption].
    destruct (isOwner p user); cbn [negb]; [|assumption].
    destruct (revalidates _); [|assumption]. now apply unique_ids_save.
  - intros id req. unfold update_property.
    destruct (isValidObjectId id); cbn [negb]; [|assumption].
    destruct (findById id (docs st)) as [p|]; [|assumption].
    destruct (isOwner p user); cbn [negb]; [|assumption].
    destruct (updated_document p req) as [p'|]; [|assumption].
    destruct (revalidates p'); [|assumption]. now apply unique_ids_save.
  - intros id. unfold delete_property.
    destruct (isValidObjectId id); cbn [negb]; [|assumption].
    destruct (findById id (docs st)) as [p|]; [|assumption].
    destruct (isOwner p user); cbn [negb]; [|assumption].
    now apply unique_ids_deleteOne.
  - intros id b. unfold admin_delete_property.
    destruct (isValidObjectId id); cbn [negb]; [|assumption].
    destruct (findById id (docs st)) as [p|]; [|assumption].
    destruct b; [|assumption]. now apply unique_ids_deleteOne.
  - intros fresh now req Hn. unfold create_property.
    destruct (new_document fresh now user req) as [p|] eqn:N; [|assumption].
    apply new_document_id in N. cbn [snd docs].
    apply unique_ids_app; [assumption|now rewrite N].
Qed.

End UniqueIds.

(** ** A listing request without filters *)


Section Unfiltered.
Context {C : Collaborators}.

(** X24.  Without any filter parameter the total of the public route is the
    size of the collection, and the total of the agent's route is the
    number of the requester's listings, the same number the analytics
    report as totalListings. *)
Theorem unfiltered_totals (rev : revision) (db : list Property) (u : User)
    (rq : gmap string string) (e : Envelope) :
  (forall k, In k user_params -> ~ In k ["page"; "limit"; "sort"; "order"] ->
             rq !! k = None) ->
  (get_properties rev db rq = ListResponse e -> total e = length db) /\
  (get_user_properties rev db (Some u) rq = ListResponse e ->
   total e = length (listings_of u db) /\
   forall a, get_analytics db (Some u) = AnalyticsResponse a ->
             total e = totalListings a).
Proof.
  intros Hk.
  assert (Hq : forall a, build_query rev a rq =
    Some {| q_agent := a; q_text := None; q_locationCoordinates := None;
            q_location := None; q_type := None; q_amenities_all := None;
            q_bedrooms := None; q_bathrooms := None; q_status := None;
            q_price := None; q_squareFootage := None |}).
  { intros a. unfold build_query, geo_filter, amenities_filter, range_filter.
    rewrite !Hk by (simpl; intuition discriminate).
    simpl. now destruct a. }
  split.
  - unfold get_properties. rewrite Hq. intros R.
    apply run_listing_envelope in R. destruct R as (f & l0 & Hs & Ht & _).
    unfold selector in Hs. simpl in Hs. injection Hs as <-.
    rewrite Ht. f_equal. clear. induction db as [|d r IH]; [reflexivity|].
    simpl. now rewrite IH.
  - unfold get_user_properties. rewrite Hq. intros R.
    apply run_listing_envelope in R. destruct R as (f & l0 & Hs & Ht & _).
    unfold selector in Hs. simpl in Hs. injection Hs as <-.
    assert (Hl : total e = length (listings_of u db)).
    { rewrite Ht. f_equal. unfold listings_of. apply List.filter_ext.
      intros p. unfold matches_fields. simpl. now rewrite !andb_true_r. }
    split; [exact Hl|]. intros a [= <-]. exact Hl.
Qed.

End Unfiltered.

(** ** The further statements at concrete requests *)

Section AtFurtherRequests.
#[local] Existing Instance sample_collaborators.

(** A [status] parameter on the public route changes nothing. *)
Lemma unread_parameters_witness :
  get_properties GeoWithinRevision [villa; pool_flat] (<["status" := "sold"]> pool_only)
    = get_properties GeoWithinRevision [villa; pool_flat] pool_only.
Proof.
  refine (proj1 (unread_parameters_are_ignored (C := sample_collaborators) GeoWithinRevision [villa; pool_flat]
                   None pool_only "status" "sold" _)).
  simpl. intuition discriminate.
Defined.


(** [type=house&bedrooms=3] returns the sample listing, a house with
    three bedrooms. *)
Lemma exact_filters_witness :
  returned (get_properties NearRevision [villa; pool_flat]
              {[ "type" := "house"; "bedrooms" := "3" ]}) villa /\
  p_type villa = "house" /\
  jeq (p_bedrooms villa) (StringToNumber "3") = true.
Proof.
  assert (R : returned (get_properties NearRevision [villa; pool_flat]
                {[ "type" := "house"; "bedrooms" := "3" ]}) villa).
  { eexists. split; [vm_compute; reflexivity|]. simpl. auto. }
  split; [exact R|].
  destruct (exact_filters_hold (C := sample_collaborators) NearRevision [villa; pool_flat] None
              {[ "type" := "house"; "bedrooms" := "3" ]} _ villa
              (or_introl eq_refl) R) as (A & B & _).
  split; [apply A|apply B]; (reflexivity || discriminate).
Defined.

(** [order=DESC] is read as ascending. *)
Lemma order_witness :
  get_properties GeoWithinRevision twelve_listings {[ "order" := "DESC" ]}
    = get_properties GeoWithinRevision twelve_listings
        (<["order" := "asc"]> {[ "order" := "DESC" ]}).
Proof.
  refine (proj1 (order_other_than_desc_is_ascending (C := sample_collaborators) GeoWithinRevision twelve_listings
                   None {[ "order" := "DESC" ]} "DESC" _ _));
    [reflexivity|discriminate].
Defined.


(** [limit=0] returns both listings and reports infinitely many pages. *)
Lemma limit_zero_witness :
  exists e,
    get_properties GeoWithinRevision [villa; pool_flat] {[ "limit" := "0" ]}
      = ListResponse e /\
    minus_signed "0" = false /\
    count e = total e /\ total e = 2%nat /\ pages e = PosInf.
Proof.
  eexists. split; [vm_compute; reflexivity|].
  destruct (limit_zero_is_unlimited (C := sample_collaborators) GeoWithinRevision [villa; pool_flat] None
              {[ "limit" := "0" ]} _
              ltac:(left; vm_compute; reflexivity) eq_refl) as (_ & H).
  destruct H as (A & B).
  { intros s Hs. vm_compute in Hs. injection Hs as <-. reflexivity. }
  split; [reflexivity|]. split; [exact A|]. split; [reflexivity|exact B].
Defined.

(** [lat] and [lng] without [radius] are ignored. *)
Lemma partial_coordinates_witness :
  get_properties NearRevision [villa; pool_flat] {[ "lat" := "6.5"; "lng" := "3.4" ]}
    = get_properties NearRevision [villa; pool_flat]
        (without_geo {[ "lat" := "6.5"; "lng" := "3.4" ]}).
Proof.
  refine (proj1 (partial_coordinates_are_ignored (C := sample_collaborators) NearRevision [villa; pool_flat] None
                   {[ "lat" := "6.5"; "lng" := "3.4" ]} _)).
  right. right. reflexivity.
Defined.

(** A fetch of the first sample listing leaves the second as it is. *)
Lemma fetch_frame_witness :
  exists r st',
    get_property sample_state (p_id villa) = (r, st') /\
    cloud st' = cloud sample_state /\
    findById (p_id pool_flat) (docs st') = Some pool_flat.
Proof.
  destruct (get_property sample_state (p_id villa)) as [r st'] eqn:E.
  exists r, st'. split; [reflexivity|].
  destruct (fetch_touches_one_listing (C := sample_collaborators) sample_state st' (p_id villa) r E)
    as (A & _ & B & _).
  split; [exact A|]. rewrite (B (p_id pool_flat)); [reflexivity|discriminate].
Defined.

(** The agent marks the sample listing as sold; the second agent may not. *)
Lemma status_update_witness :
  (exists st',
     patch_status sample_state (p_id villa) agent_a (JStr "sold")
       = (PropertyResponse 200 (with_status villa "sold"), st') /\
     findById (p_id villa) (docs st') = Some (with_status villa "sold")) /\
  patch_status sample_state (p_id villa) agent_b (JStr "sold")
    = (not_authorized, sample_state).
Proof.
  destruct (status_update_sets_only_status (C := sample_collaborators) sample_state (p_id villa) agent_a "sold"
              eq_refl ltac:(simpl; auto)) as [_ H].
  destruct (proj2 (H villa eq_refl) eq_refl eq_refl) as (st' & E & F & _).
  split; [exists st'; split; assumption|].
  destruct (status_update_sets_only_status (C := sample_collaborators) sample_state (p_id villa) agent_b "sold"
              eq_refl ltac:(simpl; auto)) as [_ H'].
  exact (proj1 (H' villa eq_refl) eq_refl).
Defined.

(** The agent deletes the sample listing: its image leaves the asset
    store, the second listing stays. *)
Lemma delete_witness :
  exists st',
    delete_property sample_state (p_id villa) agent_a
      = (MessageResponse 200 true "Property deleted", st') /\
    findById (p_id villa) (docs st') = None /\
    findById (p_id pool_flat) (docs st') = Some pool_flat /\
    p_id villa ∉ cloud st'.
Proof.
  destruct (delete_removes_listing_and_images (C := sample_collaborators) sample_state (p_id villa) agent_a villa
              eq_refl eq_refl (or_introl eq_refl)) as (st' & E & N & O & I).
  exists st'. split; [exact E|]. split; [exact N|]. split.
  - rewrite (O (p_id pool_flat)); [reflexivity|discriminate].
  - intros H. apply I in H. destruct H as [_ H]. apply H. simpl. auto.
Defined.

(** An update by the second agent changes nothing. *)
Lemma update_forbidden_witness :
  update_property sample_state (p_id villa) agent_b (Multipart equator_form one_upload)
    = (not_authorized, sample_state) /\
  (sample_state = sample_state \/
   exists p, isValidObjectId (p_id villa) = true /\
             findById (p_id villa) (docs sample_state) = Some p /\
             (p_agent p = u_id agent_b \/ role agent_b = "admin")).
Proof.
  assert (E : update_property sample_state (p_id villa) agent_b
                (Multipart equator_form one_upload)
              = (not_authorized, sample_state)) by (vm_compute; reflexivity).
  split; [exact E|].
  exact (update_requires_owner_or_admin (C := sample_collaborators) sample_state sample_state (p_id villa) agent_b
           (Multipart equator_form one_upload) not_authorized E).
Defined.

(** The update of the sample listing with a JSON body whose title and
    amenities are numbers succeeds, keeps the identity of the listing and,
    without files, its images. *)
Lemma update_identity_witness :
  update_property sample_state (p_id villa) agent_a (Json numeric_json)
    = (PropertyResponse 200 numeric_villa,
       {| docs := save numeric_villa (docs sample_state);
          cloud := cloud sample_state |}) /\
  p_title numeric_villa = "123" /\
  p_id numeric_villa = p_id villa /\ p_agent numeric_villa = p_agent villa /\
  p_createdAt numeric_villa = p_createdAt villa /\
  p_status numeric_villa = p_status villa /\
  p_views numeric_villa = p_views villa /\ p_images numeric_villa = p_images villa /\
  findById (p_id villa) (save numeric_villa (docs sample_state)) = Some numeric_villa.
Proof.
  assert (E : update_property sample_state (p_id villa) agent_a (Json numeric_json)
    = (PropertyResponse 200 numeric_villa,
       {| docs := save numeric_villa (docs sample_state);
          cloud := cloud sample_state |})) by (vm_compute; reflexivity).
  split; [exact E|]. split; [reflexivity|].
  destruct (update_keeps_identity (C := sample_collaborators) sample_state _ (p_id villa)
              agent_a (Json numeric_json) 200 villa numeric_villa
              ltac:(vm_compute; reflexivity) E) as (A & B & T & S & V & I & F).
  repeat split; assumption.
Defined.

(** An update with a new image and a form whose title is three spaces
    (which [validateProperty] lets pass) fails in the validation of [save]
    and has destroyed the old image. *)
Lemma failed_update_witness :
  exists st',
    update_property sample_state (p_id villa) agent_a
      (Multipart blank_title_form one_upload)
      = (server_error, st') /\
    docs st' = docs sample_state /\
    findById (p_id villa) (docs st') = Some villa /\
    p_id villa ∈ cloud sample_state /\ p_id villa ∉ cloud st'.
Proof.
  destruct (failed_update_loses_old_images (C := sample_collaborators) sample_state
              (p_id villa) agent_a (Multipart blank_title_form one_upload) villa
              {| path := "https://assets.example/new"; filename := "new" |} []
              ltac:(vm_compute; reflexivity) ltac:(vm_compute; reflexivity)
              ltac:(vm_compute; reflexivity) ltac:(vm_compute; reflexivity)
              ltac:(vm_compute; reflexivity))
    as (st' & E & D & I).
  exists st'. split; [exact E|]. split; [exact D|]. split; [|split].
  - rewrite D. reflexivity.
  - vm_compute. reflexivity.
  - apply I. simpl. auto.
Defined.

(** A [views] field in the form is not read. *)
Lemma other_body_fields_witness :
  create_property empty_state missing_id 0 agent_a
    (Multipart (<["views" := "1000"]> equator_form) [])
  = create_property empty_state missing_id 0 agent_a (Multipart equator_form []).
Proof.
  refine (proj1 (proj1 (other_body_fields_are_ignored (C := sample_collaborators) empty_state missing_id missing_id
                          0 agent_a "views" _) equator_form [] "1000")).
  simpl. intuition discriminate.
Defined.

(** The listing created from the sample form is fetched with one view. *)
Lemma created_listing_witness :
  exists st1 st2,
    create_property sample_state missing_id 0 agent_a (Multipart equator_form [])
      = (PropertyResponse 201 (equator_plot missing_id 0), st1) /\
    get_property st1 missing_id
      = (PropertyResponse 200 (with_views (equator_plot missing_id 0) 1), st2).
Proof.
  eexists. 
  assert (E : create_property sample_state missing_id 0 agent_a (Multipart equator_form [])
              = (PropertyResponse 201 (equator_plot missing_id 0),
                 {| docs := docs sample_state ++ [equator_plot missing_id 0];
                    cloud := cloud sample_state |})) by (vm_compute; reflexivity).
  destruct (created_listing_is_fetched (C := sample_collaborators) sample_state _ missing_id 0 agent_a
              (Multipart equator_form []) 201 (equator_plot missing_id 0)
              eq_refl eq_refl E eq_refl) as (_ & _ & _ & (st2 & G) & _).
  exists st2. split; [exact E|exact G].
Defined.

(** [pool, gym] in a form: two amenities on create, one on update, and
    the updated listing is not found by [amenities=pool, gym]. *)
Lemma amenities_split_witness :
  (exists p st1,
     create_property empty_state missing_id 0 agent_a (Multipart gym_form [])
       = (PropertyResponse 201 p, st1) /\
     p_amenities p = ["pool"; "gym"]) /\
  (exists p st1,
     update_property sample_state (p_id villa) agent_a (Multipart gym_form [])
       = (PropertyResponse 200 p, st1) /\
     p_amenities p = ["pool, gym"] /\
     ~ returned (get_properties GeoWithinRevision (docs st1)
                   {[ "amenities" := "pool, gym" ]}) p).
Proof.
  split.
  - assert (E : exists p st1,
      create_property empty_state missing_id 0 agent_a (Multipart gym_form [])
        = (PropertyResponse 201 p, st1))
      by (eexists; eexists; vm_compute; reflexivity).
    destruct E as (p & st1 & E). exists p, st1. split; [exact E|].
    destruct (proj1 (amenities_are_split_on_create_only (C := sample_collaborators) GeoWithinRevision empty_state st1
                       missing_id 0 agent_a gym_form [] "pool, gym" 201 p
                       eq_refl ltac:(discriminate)) E) as (tags & T & A & _).
    rewrite A. injection T as <-. reflexivity.
  - assert (E : exists p st1,
      update_property sample_state (p_id villa) agent_a (Multipart gym_form [])
        = (PropertyResponse 200 p, st1))
      by (eexists; eexists; vm_compute; reflexivity).
    destruct E as (p & st1 & E). exists p, st1. split; [exact E|].
    destruct (proj2 (amenities_are_split_on_create_only (C := sample_collaborators) GeoWithinRevision sample_state st1
                       (p_id villa) 0 agent_a gym_form [] "pool, gym" 200 p
                       eq_refl ltac:(discriminate)) E eq_refl) as (A & N).
    split; [exact A|].
    apply (N (docs st1) None {[ "amenities" := "pool, gym" ]}
             (get_properties GeoWithinRevision (docs st1)
                {[ "amenities" := "pool, gym" ]}));
      [vm_compute; reflexivity|left; reflexivity].
Defined.

(** Three listings at two locations give two locations. *)
Lemma locations_witness :
  get_locations three_listings ∅ = LocationsResponse 2 ["Ikoyi, Lagos"; "Abuja"] /\
  NoDup ["Ikoyi, Lagos"; "Abuja"] /\
  In "Abuja" ["Ikoyi, Lagos"; "Abuja"].
Proof.
  assert (E : get_locations three_listings ∅
              = LocationsResponse 2 ["Ikoyi, Lagos"; "Abuja"]) by (vm_compute; reflexivity).
  split; [exact E|].
  destruct (locations_are_distinct (C := sample_collaborators) three_listings ∅ 2 ["Ikoyi, Lagos"; "Abuja"] E)
    as (_ & D & I).
  split; [exact D|]. apply I. split.
  - exists pool_flat. split; [simpl; auto|reflexivity].
  - discriminate.
Defined.

(** The administrator's delete of the sample listing keeps its image. *)
Lemma admin_delete_witness :
  exists st',
    admin_delete_property true sample_state (p_id villa)
      = (AdminMessage 200 "Property deleted", st') /\
    cloud st' = cloud sample_state /\
    findById (p_id villa) (docs st') = None.
Proof.
  assert (E : exists st',
    admin_delete_property true sample_state (p_id villa)
      = (AdminMessage 200 "Property deleted", st'))
    by (eexists; vm_compute; reflexivity).
  destruct E as (st' & E). exists st'. split; [exact E|].
  destruct (admin_delete_leaves_images (C := sample_collaborators) true sample_state st' (p_id villa) _ E)
    as (A & _ & B).
  split; [exact A|]. exact (proj1 (proj2 (B eq_refl))).
Defined.

(** Two houses: the distribution counts two. *)
Lemma type_distribution_witness :
  exists a,
    get_analytics [villa; pool_flat] (Some agent_a) = AnalyticsResponse a /\
    map fst (typeDistribution a) = property_types /\
    list_sum (map snd (typeDistribution a)) = totalListings a /\
    totalListings a = 2%nat.
Proof.
  eexists. split; [reflexivity|].
  destruct (type_distribution_sums [villa; pool_flat] agent_a _ eq_refl) as (A & _ & B).
  split; [exact A|]. split; [|reflexivity].
  apply B. intros p [<-|[<-|[]]] _; simpl; auto.
Defined.

Lemma sample_ids_unique : unique_ids (docs sample_state).
Proof.
  apply NoDup_ListNoDup. repeat constructor; simpl; intuition discriminate.
Qed.

(** A fetch of the sample listing adds one view for its agent and none
    for the second agent. *)
Lemma fetch_view_witness :
  exists p st' a a' b b',
    get_property sample_state (p_id villa) = (PropertyResponse 200 p, st') /\
    get_analytics (docs sample_state) (Some agent_a) = AnalyticsResponse a /\
    get_analytics (docs st') (Some agent_a) = AnalyticsResponse a' /\
    get_analytics (docs sample_state) (Some agent_b) = AnalyticsResponse b /\
    get_analytics (docs st') (Some agent_b) = AnalyticsResponse b' /\
    totalViews a' = totalViews a + 1 /\ totalViews b' = totalViews b.
Proof.
  assert (E : exists st',
    get_property sample_state (p_id villa)
      = (PropertyResponse 200 (with_views villa 1), st'))
    by (eexists; vm_compute; reflexivity).
  destruct E as (st' & E). exists (with_views villa 1), st'.
  do 4 eexists.
  split; [exact E|].
  split; [reflexivity|]. split; [reflexivity|]. split; [reflexivity|].
  split; [reflexivity|].
  destruct (fetch_adds_one_view (C := sample_collaborators) sample_state st' (p_id villa) _ agent_a
              sample_ids_unique E _ _ eq_refl eq_refl) as (A & _).
  destruct (fetch_adds_one_view (C := sample_collaborators) sample_state st' (p_id villa) _ agent_b
              sample_ids_unique E _ _ eq_refl eq_refl) as (B & _).
  split; [exact A|]. rewrite B. apply Z.add_0_r.
Defined.

(** The sample collection after a delete and after a create. *)
Lemma unique_ids_witness :
  unique_ids (docs (snd (delete_property sample_state (p_id villa) agent_a))) /\
  unique_ids (docs (snd (create_property sample_state missing_id 0 agent_a
                           (Multipart equator_form [])))).
Proof.
  destruct (handlers_keep_ids_unique (C := sample_collaborators) sample_state agent_a sample_ids_unique)
    as (_ & _ & _ & D & _ & K).
  split; [apply D|apply K; reflexivity].
Defined.

(** Twelve listings of one agent and no filter: both totals are 12. *)
Lemma unfiltered_totals_witness :
  total page_two_envelope = length twelve_listings /\
  total page_two_envelope = length (listings_of agent_a twelve_listings).
Proof.
  destruct (unfiltered_totals (C := sample_collaborators) GeoWithinRevision twelve_listings agent_a page_two_of_five
              page_two_envelope) as (A & B).
  - intros k Hk Hn. simpl in Hk.
    repeat (destruct Hk as [<-|Hk]; [try reflexivity; exfalso; apply Hn; simpl; tauto|]).
    contradiction.
  - split; [apply A|apply B]; vm_compute; reflexivity.
Defined.

End AtFurtherRequests.
